(** * hetero_regs: simulated register bank of the 6-core heterogeneous system

    A shallow embedding of the kernel module [hetero_regs.c] (driver v3: the
    register bank, the two responder work items, the ioctl entry point and
    the module initialisation) and of the user-side register accesses of
    [test_regs.c], followed by the properties established about them.

    The driver keeps one [kmalloc]ed block of [TOTAL_SIZE] bytes; the packed
    structure [hetero_hw_regs] is overlaid on its first bytes and the shared
    memory starts [REG_SPACE_SIZE] bytes in.  The block is modelled as a list
    of bytes, 32-bit registers being little-endian groups of four bytes at
    the offset the structure layout gives them. *)

From Stdlib Require Import ZArith Lia.
From Stdlib Require Import Strings.Byte Strings.String Strings.Ascii.
From Stdlib Require Import DecimalString.
From stdpp Require Import base decidable list list_numbers.

Local Open Scope Z_scope.

(** ** Bytes and little-endian words *)

Module Mem.

#[global] Instance byte_inhabited : Inhabited byte := populate x00.

Definition Z_of_byte (b : byte) : Z := Z.of_N (Byte.to_N b).

Definition byte_of_Z (z : Z) : byte :=
  default x00 (Byte.of_N (Z.to_N (z mod 256))).

(** The [n] low-order bytes of [v], least significant first. *)
Fixpoint le_split (n : nat) (v : Z) : list byte :=
  match n with
  | O => []
  | S n' => byte_of_Z v :: le_split n' (v / 256)
  end.

Fixpoint le_combine (bs : list byte) : Z :=
  match bs with
  | [] => 0
  | b :: bs' => Z_of_byte b + 256 * le_combine bs'
  end.

(** [write_bytes m p bs]: the block [m] with [bs] copied in at offset [p].
    Every access of the driver lies inside the block; what would run
    past its end is not stored. *)
Fixpoint write_bytes (m : list byte) (p : nat) (bs : list byte) : list byte :=
  match m with
  | [] => []
  | b :: m' =>
      match p with
      | S p' => b :: write_bytes m' p' bs
      | O =>
          match bs with
          | [] => m
          | c :: bs' => c :: write_bytes m' O bs'
          end
      end
  end.

(** [memset(m + p, c, n)] *)
Definition memset (m : list byte) (p : nat) (c : byte) (n : nat) : list byte :=
  write_bytes m p (replicate n c).

(** [*(volatile uint32_t * )(m + a)] *)
Definition load32 (m : list byte) (a : nat) : Z :=
  le_combine [m !!! a; m !!! (a + 1)%nat; m !!! (a + 2)%nat; m !!! (a + 3)%nat].

(** [*(volatile uint32_t * )(m + a) = v]; the conversion to [u32] keeps
    the low 32 bits of [v]. *)
Definition store32 (m : list byte) (a : nat) (v : Z) : list byte :=
  write_bytes m a (le_split 4 v).

End Mem.
Import Mem.

(** ** The register structure and the device *)

(** Sizes of the two regions ([REG_SPACE_SIZE], [SHARED_MEM_SIZE],
    [TOTAL_SIZE]). *)
Definition REG_SPACE_SIZE : nat := 4096.
Definition SHARED_MEM_SIZE : nat := 32 * 1024.
Definition TOTAL_SIZE : nat := REG_SPACE_SIZE + SHARED_MEM_SIZE.

(** The members of [struct hetero_hw_regs], in declaration order. *)
Inductive hw_field : Set :=
  | ipi_status | ipi_trigger | ipi_clear | ipi_enable
  | mbox_main_to_core0_cmd | mbox_main_to_core0_data
  | mbox_core0_to_main_status | mbox_core0_to_main_resp
  | mbox_main_to_core1_cmd | mbox_main_to_core1_data
  | mbox_core1_to_main_status | mbox_core1_to_main_resp
  | hw_mutex_request | hw_mutex_status | hw_mutex_release
  | padding.

#[global] Instance hw_field_eq_dec : EqDecision hw_field.
Proof. solve_decision. Defined.

(** [struct hetero_hw_regs { ... } __attribute__((packed))]: each member with
    its size in bytes; fifteen [u32] and [u8 padding[4096 - 0x4C]]. *)
Definition hetero_hw_regs : list (hw_field * nat) :=
  [ (ipi_status, 4); (ipi_trigger, 4); (ipi_clear, 4); (ipi_enable, 4);
    (mbox_main_to_core0_cmd, 4); (mbox_main_to_core0_data, 4);
    (mbox_core0_to_main_status, 4); (mbox_core0_to_main_resp, 4);
    (mbox_main_to_core1_cmd, 4); (mbox_main_to_core1_data, 4);
    (mbox_core1_to_main_status, 4); (mbox_core1_to_main_resp, 4);
    (hw_mutex_request, 4); (hw_mutex_status, 4); (hw_mutex_release, 4);
    (padding, 4096 - 0x4C) ]%nat.

(** In a packed structure a member starts where the members before it end. *)
Fixpoint offsetof_in (layout : list (hw_field * nat)) (f : hw_field) : nat :=
  match layout with
  | [] => 0
  | (g, sz) :: rest => if decide (g = f) then 0 else sz + offsetof_in rest f
  end%nat.

Fixpoint sizeof_layout (layout : list (hw_field * nat)) : nat :=
  match layout with
  | [] => 0
  | (_, sz) :: rest => sz + sizeof_layout rest
  end%nat.

Definition offsetof (f : hw_field) : nat := offsetof_in hetero_hw_regs f.
Definition sizeof_hetero_hw_regs : nat := sizeof_layout hetero_hw_regs.

(** [struct hetero_device], without the character-device bookkeeping.
    [mem_base] is the whole block; [regs] and [shared_mem] point into it
    (offsets [regs_offset] and [shared_mem_offset]).  A work item is
    represented by its pending flag. *)
Record hetero_device : Type := {
  mem_base : list byte;
  core0_work : bool;
  core1_work : bool;
  ipi_count : Z;
  msg_count : Z
}.

(** [hdev->regs = (struct hetero_hw_regs * )hdev->mem_base] *)
Definition regs_offset : nat := 0.
(** [hdev->shared_mem = hdev->mem_base + REG_SPACE_SIZE] *)
Definition shared_mem_offset : nat := REG_SPACE_SIZE.

Definition set_mem (dev : hetero_device) (m : list byte) : hetero_device :=
  {| mem_base := m; core0_work := core0_work dev; core1_work := core1_work dev;
     ipi_count := ipi_count dev; msg_count := msg_count dev |}.

Definition set_core0_work (dev : hetero_device) (b : bool) : hetero_device :=
  {| mem_base := mem_base dev; core0_work := b; core1_work := core1_work dev;
     ipi_count := ipi_count dev; msg_count := msg_count dev |}.

Definition set_core1_work (dev : hetero_device) (b : bool) : hetero_device :=
  {| mem_base := mem_base dev; core0_work := core0_work dev; core1_work := b;
     ipi_count := ipi_count dev; msg_count := msg_count dev |}.

Definition set_ipi_count (dev : hetero_device) (n : Z) : hetero_device :=
  {| mem_base := mem_base dev; core0_work := core0_work dev;
     core1_work := core1_work dev; ipi_count := n; msg_count := msg_count dev |}.

Definition set_msg_count (dev : hetero_device) (n : Z) : hetero_device :=
  {| mem_base := mem_base dev; core0_work := core0_work dev;
     core1_work := core1_work dev; ipi_count := ipi_count dev; msg_count := n |}.

(** [dev->regs->f] read and written as a [u32]. *)
Definition get_reg (dev : hetero_device) (f : hw_field) : Z :=
  load32 (mem_base dev) (regs_offset + offsetof f).

Definition set_reg (dev : hetero_device) (f : hw_field) (v : Z) : hetero_device :=
  set_mem dev (store32 (mem_base dev) (regs_offset + offsetof f) v).

(** The bytes of the shared memory region. *)
Definition shared_mem (dev : hetero_device) : list byte :=
  take SHARED_MEM_SIZE (drop shared_mem_offset (mem_base dev)).

(** ** C arithmetic used by the driver *)

(** Conversion to [u32]. *)
Definition u32 (z : Z) : Z := z mod 2 ^ 32.

(** Wrap-around of the 32-bit signed counter inside an [atomic_t]. *)
Definition int_wrap (z : Z) : Z := (z + 2 ^ 31) mod 2 ^ 32 - 2 ^ 31.

Definition atomic_inc (v : Z) : Z := int_wrap (v + 1).

(** [1 << n] on [int]: defined for a shift count from 0 to 31 (GNU C gives
    the bit pattern for count 31 as well), undefined otherwise. *)
Definition shl_int (x n : Z) : option Z :=
  if (0 <=? n) && (n <? 32) then Some (Z.shiftl x n) else None.

Definition EFAULT : Z := 14.
Definition EINVAL : Z := 22.
Definition ENOMEM : Z := 12.

(** ** The simulated remote cores *)

(** [schedule_work]: marks the work item pending (a pending item stays
    queued once). *)
Definition schedule_core0_work (dev : hetero_device) : hetero_device :=
  set_core0_work dev true.
Definition schedule_core1_work (dev : hetero_device) : hetero_device :=
  set_core1_work dev true.

(** [core0_response_work]: the I/O core answers the mailbox command.
    [jiffies] is the value of the kernel tick counter read by the run;
    [msleep] only delays. *)
Definition core0_response_work (jiffies : Z) (dev : hetero_device) : hetero_device :=
  let cmd := get_reg dev mbox_main_to_core0_cmd in
  let data := get_reg dev mbox_main_to_core0_data in
  let dev :=
    if cmd =? 0 then dev
    else
      let dev :=
        if cmd =? 0x0001 then
          set_reg dev mbox_core0_to_main_resp 0x8001
        else if cmd =? 0x0010 then
          set_reg dev mbox_core0_to_main_resp (Z.lor 0x8010 (Z.land jiffies 0xFF))
        else
          set_reg dev mbox_core0_to_main_resp 0xFFFF in
      let dev := set_reg dev mbox_main_to_core0_cmd 0 in
      set_reg dev mbox_core0_to_main_status 1
  in
  set_reg dev ipi_status (Z.land (get_reg dev ipi_status) (u32 (Z.lnot 0x01))).

(** [core1_response_work]: the real-time core answers at once, without
    looking at the mailbox command. *)
Definition core1_response_work (jiffies : Z) (dev : hetero_device) : hetero_device :=
  let dev := set_reg dev mbox_core1_to_main_resp (Z.lor 0x5200 (Z.land jiffies 0xFF)) in
  let dev := set_reg dev mbox_core1_to_main_status 1 in
  set_reg dev ipi_status (Z.land (get_reg dev ipi_status) (u32 (Z.lnot 0x02))).

(** ** The control interface *)

Inductive ioctl_cmd : Set :=
  | HETERO_IOC_GET_INFO
  | HETERO_IOC_CORE_STATUS
  | HETERO_IOC_SEND_IPI
  | HETERO_IOC_RESET
  | IOC_other (nr : Z).

Record hetero_info : Set := {
  num_cores : Z;
  reg_size : Z;
  shared_size : Z;
  reg_base : Z;
  shared_base : Z
}.

(** The user pointer passed as [arg]: the [int] that [copy_from_user] finds
    there, if the address is readable, and whether [copy_to_user] succeeds. *)
Record user_ptr : Set := {
  u_int : option Z;
  u_writable : bool
}.

Record ioctl_result : Type := {
  ret : Z;
  dev_after : hetero_device;
  info_out : option hetero_info
}.

Definition returns (r : Z) (dev : hetero_device) : ioctl_result :=
  {| ret := r; dev_after := dev; info_out := None |}.

(** [hetero_ioctl].  The result is [None] where the C code has no defined
    behaviour (the shift count of [1 << core_id] out of range). *)
Definition hetero_ioctl (dev : hetero_device) (cmd : ioctl_cmd) (arg : user_ptr)
  : option ioctl_result :=
  match cmd with
  | HETERO_IOC_GET_INFO =>
      let info := {| num_cores := 6;
                     reg_size := Z.of_nat REG_SPACE_SIZE;
                     shared_size := Z.of_nat SHARED_MEM_SIZE;
                     reg_base := 0;
                     shared_base := Z.of_nat REG_SPACE_SIZE |} in
      if u_writable arg
      then Some {| ret := 0; dev_after := dev; info_out := Some info |}
      else Some (returns (- EFAULT) dev)
  | HETERO_IOC_SEND_IPI =>
      match u_int arg with
      | None => Some (returns (- EFAULT) dev)
      | Some core_id =>
          match shl_int 1 core_id with
          | None => None
          | Some bit =>
              let dev := set_reg dev ipi_trigger bit in
              let dev := set_reg dev ipi_status (Z.lor (get_reg dev ipi_status) (u32 bit)) in
              let dev := set_ipi_count dev (atomic_inc (ipi_count dev)) in
              let dev :=
                if core_id =? 0 then schedule_core0_work dev
                else if core_id =? 1 then schedule_core1_work dev
                else dev in
              Some (returns 0 dev)
          end
      end
  | HETERO_IOC_RESET =>
      let dev := set_mem dev (memset (mem_base dev) regs_offset x00 sizeof_hetero_hw_regs) in
      let dev := set_ipi_count dev 0 in
      let dev := set_msg_count dev 0 in
      Some (returns 0 dev)
  | _ => Some (returns (- EINVAL) dev)
  end.

(** ** Module initialisation *)

(** What [hetero_init] gets from the kernel: whether [kzalloc] of the device
    structure succeeds, the block [kmalloc] returns (its contents are
    whatever the allocator left there), and the result of registering the
    character device (0, or the negative error of the first step that
    fails). *)
Record init_env : Type := {
  kzalloc_ok : bool;
  kmalloc_block : option (list byte);
  register_ret : Z
}.

(** The text written at the start of the shared memory. *)
Definition shared_mem_banner : string :=
  String.append "6-Core Heterogeneous System Shared Memory"
                (String (ascii_of_nat 10) EmptyString).

(** [sprintf(m + p, s)] for a format without conversions: the characters
    and the terminating NUL. *)
Definition sprintf (m : list byte) (p : nat) (s : string) : list byte :=
  write_bytes m p (list_byte_of_string s ++ [x00]).

Definition hetero_init (env : init_env) : Z * option hetero_device :=
  if negb (kzalloc_ok env) then (- ENOMEM, None)
  else
    match kmalloc_block env with
    | None => (- ENOMEM, None)
    | Some block =>
        let m := memset block 0 x00 TOTAL_SIZE in
        let m := store32 m (regs_offset + offsetof ipi_enable) 0x03 in
        let m := store32 m (regs_offset + offsetof hw_mutex_status) 0xFFFF in
        let m := sprintf m shared_mem_offset shared_mem_banner in
        let dev := {| mem_base := m; core0_work := false; core1_work := false;
                      ipi_count := 0; msg_count := 0 |} in
        if register_ret env =? 0 then (0, Some dev) else (register_ret env, None)
    end.

(** ** The caller's side ([test_regs.c]) *)

(** [REG_READ32] and [REG_WRITE32] on the mapping of the block. *)
Definition REG_READ32 (dev : hetero_device) (offset : nat) : Z :=
  load32 (mem_base dev) offset.

Definition REG_WRITE32 (dev : hetero_device) (offset : nat) (val : Z) : hetero_device :=
  set_mem dev (store32 (mem_base dev) offset val).

(** Register offsets as the driver ([..._OFFSET]) and the test program
    publish them. *)
Definition IPI_STATUS_OFFSET : nat := 0x00.
Definition IPI_TRIGGER_OFFSET : nat := 0x04.
Definition IPI_CLEAR_OFFSET : nat := 0x08.
Definition IPI_ENABLE_OFFSET : nat := 0x0C.
Definition MBOX_MAIN_TO_CORE0_CMD_OFFSET : nat := 0x10.
Definition MBOX_MAIN_TO_CORE0_DATA_OFFSET : nat := 0x14.
Definition MBOX_C02M_STAT : nat := 0x18.
Definition MBOX_CORE0_TO_MAIN_RESP_OFFSET : nat := 0x1C.
Definition MBOX_MAIN_TO_CORE1_CMD_OFFSET : nat := 0x20.
Definition MBOX_MAIN_TO_CORE1_DATA_OFFSET : nat := 0x24.
Definition MBOX_CORE1_TO_MAIN_RESP_OFFSET : nat := 0x2C.
Definition HW_MUTEX_REQUEST_OFFSET : nat := 0x30.
Definition HW_MUTEX_STATUS_OFFSET : nat := 0x34.
Definition HW_MUTEX_RELEASE_OFFSET : nat := 0x38.

(** A mailbox channel is selected by the core number: 0 is the I/O core,
    anything else stands for the real-time core (number 1). *)
Definition mbox_cmd (c : Z) : hw_field :=
  if c =? 0 then mbox_main_to_core0_cmd else mbox_main_to_core1_cmd.
Definition mbox_data (c : Z) : hw_field :=
  if c =? 0 then mbox_main_to_core0_data else mbox_main_to_core1_data.
Definition mbox_status (c : Z) : hw_field :=
  if c =? 0 then mbox_core0_to_main_status else mbox_core1_to_main_status.
Definition mbox_resp (c : Z) : hw_field :=
  if c =? 0 then mbox_core0_to_main_resp else mbox_core1_to_main_resp.

(** Test 3 of [main]: the data word, then the command, are written to the
    mailbox through the mapping.  The test program does so for the I/O
    core; for the real-time core the same two writes go to the offsets the
    driver publishes for its mailbox. *)
Definition write_mailbox (c cmd data : Z) (dev : hetero_device) : hetero_device :=
  let dev := REG_WRITE32 dev
               (if c =? 0 then MBOX_MAIN_TO_CORE0_DATA_OFFSET
                else MBOX_MAIN_TO_CORE1_DATA_OFFSET) data in
  REG_WRITE32 dev
    (if c =? 0 then MBOX_MAIN_TO_CORE0_CMD_OFFSET
     else MBOX_MAIN_TO_CORE1_CMD_OFFSET) cmd.

(** Test 4 of [main]: a lock is requested, and released, by writing its
    mask to the request, respectively the release, register. *)
Definition mutex_request (mask : Z) (dev : hetero_device) : hetero_device :=
  REG_WRITE32 dev HW_MUTEX_REQUEST_OFFSET mask.
Definition mutex_release (mask : Z) (dev : hetero_device) : hetero_device :=
  REG_WRITE32 dev HW_MUTEX_RELEASE_OFFSET mask.

(** The [int] the caller passes to [HETERO_IOC_SEND_IPI]. *)
Definition core_id_arg (core_id : Z) : user_ptr :=
  {| u_int := Some core_id; u_writable := true |}.

(** ** The work queue *)

(** The worker takes a pending item off the queue and runs its function;
    [jiffies] is the tick counter at that moment. *)
Definition run_core0_work (jiffies : Z) (dev : hetero_device) : option hetero_device :=
  if core0_work dev
  then Some (core0_response_work jiffies (set_core0_work dev false))
  else None.

Definition run_core1_work (jiffies : Z) (dev : hetero_device) : option hetero_device :=
  if core1_work dev
  then Some (core1_response_work jiffies (set_core1_work dev false))
  else None.

Definition run_work (c : Z) (jiffies : Z) (dev : hetero_device) : option hetero_device :=
  if c =? 0 then run_core0_work jiffies dev
  else if c =? 1 then run_core1_work jiffies dev
  else None.

(** The responder of a channel. *)
Definition response_work (c : Z) (jiffies : Z) (dev : hetero_device) : hetero_device :=
  if c =? 0 then core0_response_work jiffies dev
  else core1_response_work jiffies dev.

(** ** A freshly loaded module *)

(** The allocations succeed, the block comes back filled with the slab
    poison byte, and the device registers. *)
Definition boot_env : init_env :=
  {| kzalloc_ok := true;
     kmalloc_block := Some (replicate TOTAL_SIZE x6b);
     register_ret := 0 |}.

Definition no_device : hetero_device :=
  {| mem_base := []; core0_work := false; core1_work := false;
     ipi_count := 0; msg_count := 0 |}.

Definition booted : hetero_device := default no_device (snd (hetero_init boot_env)).

(** A pointer the reset request never looks at. *)
Definition null_arg : user_ptr := {| u_int := None; u_writable := false |}.

(** The device after a reset of the freshly loaded module. *)
Definition booted_reset : hetero_device :=
  match hetero_ioctl booted HETERO_IOC_RESET null_arg with
  | Some r => dev_after r
  | None => no_device
  end.

(** The invariant of a live device: the block has the size it was
    allocated with. *)
Definition mapped (dev : hetero_device) : Prop :=
  length (mem_base dev) = TOTAL_SIZE.

(** ** Mapping the block ([hetero_mmap]) *)

Record vm_area_struct : Set := {
  vm_start : Z;
  vm_end : Z;
  vm_pgoff : Z
}.

(** [hetero_mmap].  [remap_pfn_range] stands for the kernel function of
    that name, as a function of the size it is asked to map: 0, or a
    negative error.  The result is the return value and, when the mapping
    is established, the number of bytes of the block it covers (always
    from the start of the block: [vm_pgoff] is only logged). *)
Definition hetero_mmap (vma : vm_area_struct) (remap_pfn_range : Z -> Z)
  : Z * option Z :=
  let size := (vm_end vma - vm_start vma) mod 2 ^ 64 in
  if size >? Z.of_nat TOTAL_SIZE then (- EINVAL, None)
  else
    let ret := remap_pfn_range size in
    if ret =? 0 then (0, Some size) else (ret, None).

(** ** Runs of the system *)

(** What can happen to a live device: a control request, a 32-bit store of
    the caller through the mapping, and a run of either responder by the
    work queue. *)
Inductive event : Type :=
  | Ioctl (cmd : ioctl_cmd) (arg : user_ptr)
  | UserWrite (offset : nat) (val : Z)
  | Core0Work (jiffies : Z)
  | Core1Work (jiffies : Z).

(** One event.  There is no next state where the C code has no defined
    behaviour, where the store falls outside the mapping, and where the
    work item is not pending. *)
Definition step (dev : hetero_device) (ev : event) : option hetero_device :=
  match ev with
  | Ioctl cmd arg => dev_after <$> hetero_ioctl dev cmd arg
  | UserWrite offset val =>
      if (offset + 4 <=? TOTAL_SIZE)%nat
      then Some (REG_WRITE32 dev offset val)
      else None
  | Core0Work jiffies => run_core0_work jiffies dev
  | Core1Work jiffies => run_core1_work jiffies dev
  end.

Fixpoint run_events (dev : hetero_device) (evs : list event)
  : option hetero_device :=
  match evs with
  | [] => Some dev
  | ev :: evs' =>
      match step dev ev with
      | Some dev' => run_events dev' evs'
      | None => None
      end
  end.

Definition is_user_write (ev : event) : bool :=
  match ev with UserWrite _ _ => true | _ => false end.

Definition is_reset (ev : event) : bool :=
  match ev with Ioctl HETERO_IOC_RESET _ => true | _ => false end.

(** An interrupt request whose argument can be read. *)
Definition is_send_ipi (ev : event) : bool :=
  match ev with
  | Ioctl HETERO_IOC_SEND_IPI arg =>
      match u_int arg with Some _ => true | None => false end
  | _ => false
  end.


(** A run on which the invariants can be observed: both cores are
    interrupted and answer, one interrupt request has an unreadable
    argument, and the device information is queried. *)
Definition sample_run : list event :=
  [ Ioctl HETERO_IOC_SEND_IPI (core_id_arg 0); Core0Work 7;
    Ioctl HETERO_IOC_SEND_IPI (core_id_arg 1); Core1Work 8;
    Ioctl HETERO_IOC_SEND_IPI null_arg;
    Ioctl HETERO_IOC_GET_INFO null_arg ].

(** ** The caller's wait for the response ([main], test 3) *)

Record poll_result : Type := {
  poll_dev : hetero_device;
  poll_timeout : Z;
  poll_resp : option Z
}.

(** The loop [while (timeout-- > 0) { ... usleep(1000); }] entered with
    [timeout = n]: [poll_timeout] is the value of [timeout] when the loop
    is left, [poll_resp] the response read, if the status register was
    seen non-zero.  [kernel i] is what the rest of the system does to the
    device during the [i]-th sleep. *)
Fixpoint poll_from (n : nat) (i : nat)
    (kernel : nat -> hetero_device -> hetero_device) (dev : hetero_device)
  : poll_result :=
  match n with
  | O => {| poll_dev := dev; poll_timeout := -1; poll_resp := None |}
  | S n' =>
      if REG_READ32 dev MBOX_C02M_STAT =? 0 then
        poll_from n' (S i) kernel (kernel i dev)
      else
        let resp := REG_READ32 dev MBOX_CORE0_TO_MAIN_RESP_OFFSET in
        {| poll_dev := REG_WRITE32 dev MBOX_C02M_STAT 0;
           poll_timeout := Z.of_nat n';
           poll_resp := Some resp |}
  end.

(** [int timeout = 100;] and the loop. *)
Definition poll_response (kernel : nat -> hetero_device -> hetero_device)
    (dev : hetero_device) : poll_result :=
  poll_from 100 0 kernel dev.

(** [if (timeout <= 0)]: the caller prints that the response timed out. *)
Definition reports_timeout (r : poll_result) : bool := poll_timeout r <=? 0.

(** The device [k] sleeps after the sleep numbered [i] is about to
    begin, and the device at the [k]-th reading of the status register
    (counted from 0), as long as the caller keeps sleeping. *)
Fixpoint dev_after_sleeps (kernel : nat -> hetero_device -> hetero_device)
    (i : nat) (dev : hetero_device) (k : nat) : hetero_device :=
  match k with
  | O => dev
  | S k' => dev_after_sleeps kernel (S i) (kernel i dev) k'
  end.

Definition dev_at_poll (kernel : nat -> hetero_device -> hetero_device)
    (dev : hetero_device) (k : nat) : hetero_device :=
  dev_after_sleeps kernel 0 dev k.

(** A kernel in which the work queue runs the I/O core's responder, at
    tick 0x40, during the first sleep of the caller, and a device on which
    a PING has been posted and signalled. *)
Definition prompt_kernel (i : nat) (dev : hetero_device) : hetero_device :=
  if (i =? 0)%nat then default dev (run_core0_work 0x40 dev) else dev.

Definition ping_posted : hetero_device :=
  match hetero_ioctl (write_mailbox 0 0x0001 0x12345678 booted)
          HETERO_IOC_SEND_IPI (core_id_arg 0) with
  | Some r => dev_after r
  | None => no_device
  end.

(** ** The earlier driver [hetero_mmap.c]: the shared memory alone, with
    [read], [write] and [mmap] *)

Module HeteroMmap.

Definition SHARED_SIZE : Z := 32 * 1024.

(** [struct hetero_dev], without the character-device bookkeeping; the
    physical address is a function of the pointer and no state. *)
Record hetero_dev : Type := {
  shared_mem : list byte
}.

(** What a call of [hetero_read] gives back: the return value, the file
    position afterwards, and the bytes put in the caller's buffer when the
    copy succeeded. *)
Record read_result : Type := {
  read_ret : Z;
  read_ppos : Z;
  read_data : list byte
}.

(** [hetero_read].  [buf_ok] says whether [copy_to_user] succeeds on the
    caller's buffer.  A negative file position, which the kernel does not
    pass on, would make the copy start before the block: no result. *)
Definition hetero_read (dev : hetero_dev) (buf_ok : bool) (count ppos : Z)
  : option read_result :=
  if ppos <? 0 then None
  else if ppos >=? SHARED_SIZE then
    Some {| read_ret := 0; read_ppos := ppos; read_data := [] |}
  else
    let len := Z.min count ((SHARED_SIZE - ppos) mod 2 ^ 64) in
    if buf_ok then
      Some {| read_ret := len;
              read_ppos := ppos + len;
              read_data := take (Z.to_nat len)
                             (drop (Z.to_nat ppos) (shared_mem dev)) |}
    else
      Some {| read_ret := - EFAULT; read_ppos := ppos; read_data := [] |}.

(** The caller's buffer as [copy_from_user] finds it: readable bytes (at
    least as many as are asked for), or a fault, in which case [partial] is
    what the interrupted copy has left in the destination. *)
Inductive user_src : Type :=
  | UserBytes (data : list byte)
  | UserFault (partial : list byte).

Record write_result : Type := {
  write_ret : Z;
  write_ppos : Z;
  write_dev : hetero_dev
}.

(** [hetero_write] *)
Definition hetero_write (dev : hetero_dev) (buf : user_src) (count ppos : Z)
  : option write_result :=
  if ppos <? 0 then None
  else if ppos >=? SHARED_SIZE then
    Some {| write_ret := 0; write_ppos := ppos; write_dev := dev |}
  else
    let len := Z.min count ((SHARED_SIZE - ppos) mod 2 ^ 64) in
    match buf with
    | UserBytes data =>
        Some {| write_ret := len;
                write_ppos := ppos + len;
                write_dev :=
                  {| shared_mem :=
                       write_bytes (shared_mem dev) (Z.to_nat ppos)
                         (take (Z.to_nat len) data) |} |}
    | UserFault partial =>
        Some {| write_ret := - EFAULT;
                write_ppos := ppos;
                write_dev :=
                  {| shared_mem :=
                       write_bytes (shared_mem dev) (Z.to_nat ppos)
                         (take (Z.to_nat len) partial) |} |}
    end.

(** [hetero_mmap], with [remap_pfn_range] as for the later driver. *)
Definition hetero_mmap (vma : vm_area_struct) (remap_pfn_range : Z -> Z)
  : Z * option Z :=
  let size := (vm_end vma - vm_start vma) mod 2 ^ 64 in
  if size >? SHARED_SIZE then (- EINVAL, None)
  else
    let ret := remap_pfn_range size in
    if ret =? 0 then (0, Some size) else (ret, None).

(** [%ld] applied to the tick counter, an [unsigned long]. *)
Definition long_of_ulong (j : Z) : Z :=
  if j mod 2 ^ 64 <? 2 ^ 63 then j mod 2 ^ 64 else j mod 2 ^ 64 - 2 ^ 64.

Definition greeting_prefix : string := "Hello from kernel! Time: ".

(** The text of [sprintf(..., "Hello from kernel! Time: %ld\n", jiffies)]. *)
Definition greeting (jiffies : Z) : string :=
  String.append greeting_prefix
    (String.append (NilZero.string_of_int (Z.to_int (long_of_ulong jiffies)))
       (String (ascii_of_nat 10) EmptyString)).

(** [hetero_init], with the environment of the later driver's
    initialisation and the tick counter. *)
Definition hetero_init (env : init_env) (jiffies : Z) : Z * option hetero_dev :=
  if negb (kzalloc_ok env) then (- ENOMEM, None)
  else
    match kmalloc_block env with
    | None => (- ENOMEM, None)
    | Some block =>
        let m := memset block 0 x00 (Z.to_nat SHARED_SIZE) in
        let m := sprintf m 0 (greeting jiffies) in
        if register_ret env =? 0 then (0, Some {| shared_mem := m |})
        else (register_ret env, None)
    end.

End HeteroMmap.

(** ** The test program [test_mmap.c] *)

Module TestMmap.

(** Test 4: [for (int i = 0; i < 32; i++) memset(mapped_mem + i * 1024,
    i & 0xFF, 1024);], as the iterations from [i] on, [n] of them. *)
Fixpoint fill_from (n : nat) (i : Z) (mapped_mem : list byte) : list byte :=
  match n with
  | O => mapped_mem
  | S n' =>
      fill_from n' (i + 1)
        (memset mapped_mem (Z.to_nat (i * 1024)) (byte_of_Z (Z.land i 0xFF)) 1024)
  end.

Definition test4_fill (mapped_mem : list byte) : list byte :=
  fill_from 32 0 mapped_mem.

(** Test 5: [mapped_mem[SHARED_SIZE - 1] = 'E';] *)
Definition test5_last_byte (mapped_mem : list byte) : list byte :=
  write_bytes mapped_mem (Z.to_nat (HeteroMmap.SHARED_SIZE - 1)) [x45].

End TestMmap.

(** ** The earlier driver [hetero_soc_v2.c]: status words and the control
    interface *)

Module HeteroSoc.

Definition ENOTTY : Z := 25.

Record hetero_msg : Set := {
  core_id : Z;
  cmd : Z;
  data : Z
}.

(** The status part of [struct hetero_device]. *)
Record hetero_device : Set := {
  io_core_status : Z;
  rt_core_status : Z;
  msg_count : Z;
  last_cmd : Z
}.

Inductive ioctl_cmd : Set :=
  | HETERO_IOC_PING_CORE
  | HETERO_IOC_GET_STATUS
  | HETERO_IOC_SEND_MSG
  | HETERO_IOC_RESET
  | IOC_other.

(** The user pointer passed as [arg]: the [int], respectively the message,
    [copy_from_user] finds there if the address is readable, and whether
    [copy_to_user] succeeds. *)
Record user_arg : Set := {
  u_int : option Z;
  u_msg : option hetero_msg;
  u_writable : bool
}.

Record ioctl_result : Set := {
  ret : Z;
  dev_after : hetero_device;
  status_out : option Z
}.

(** The state [hetero_init] sets up. *)
Definition initial : hetero_device :=
  {| io_core_status := 0; rt_core_status := 0; msg_count := 0; last_cmd := 0 |}.

(** [hetero_ioctl].  Every command number that is not one of the four,
    with the right magic number or not, ends in [-ENOTTY]. *)
Definition hetero_ioctl (hdev : hetero_device) (c : ioctl_cmd) (arg : user_arg)
  : ioctl_result :=
  match c with
  | HETERO_IOC_PING_CORE =>
      match u_int arg with
      | None => {| ret := - EFAULT; dev_after := hdev; status_out := None |}
      | Some id =>
          if id =? 0 then
            {| ret := 0;
               dev_after :=
                 {| io_core_status := 1;
                    rt_core_status := rt_core_status hdev;
                    msg_count := int_wrap (msg_count hdev + 1);
                    last_cmd := last_cmd hdev |};
               status_out := None |}
          else if id =? 1 then
            {| ret := 0;
               dev_after :=
                 {| io_core_status := io_core_status hdev;
                    rt_core_status := 1;
                    msg_count := int_wrap (msg_count hdev + 1);
                    last_cmd := last_cmd hdev |};
               status_out := None |}
          else {| ret := - EINVAL; dev_after := hdev; status_out := None |}
      end
  | HETERO_IOC_GET_STATUS =>
      let r := int_wrap (Z.lor (Z.shiftl (io_core_status hdev) 0)
                               (Z.shiftl (rt_core_status hdev) 1)) in
      if u_writable arg
      then {| ret := r; dev_after := hdev; status_out := Some r |}
      else {| ret := - EFAULT; dev_after := hdev; status_out := None |}
  | HETERO_IOC_SEND_MSG =>
      match u_msg arg with
      | None => {| ret := - EFAULT; dev_after := hdev; status_out := None |}
      | Some msg =>
          {| ret := 0;
             dev_after :=
               {| io_core_status := io_core_status hdev;
                  rt_core_status := rt_core_status hdev;
                  msg_count := int_wrap (msg_count hdev + 1);
                  last_cmd := cmd msg |};
             status_out := None |}
      end
  | HETERO_IOC_RESET =>
      {| ret := 0; dev_after := initial; status_out := None |}
  | IOC_other => {| ret := - ENOTTY; dev_after := hdev; status_out := None |}
  end.

(** A sequence of requests, one after the other. *)
Fixpoint run_requests (hdev : hetero_device) (reqs : list (ioctl_cmd * user_arg))
  : hetero_device :=
  match reqs with
  | [] => hdev
  | (c, arg) :: reqs' => run_requests (dev_after (hetero_ioctl hdev c arg)) reqs'
  end.

(** Whether a request counts as a message: a ping of core 0 or 1, or a
    message that could be read. *)
Definition counts_message (req : ioctl_cmd * user_arg) : bool :=
  match req with
  | (HETERO_IOC_PING_CORE, arg) =>
      match u_int arg with
      | Some id => (id =? 0) || (id =? 1)
      | None => false
      end
  | (HETERO_IOC_SEND_MSG, arg) =>
      match u_msg arg with Some _ => true | None => false end
  | _ => false
  end.

Definition is_reset (req : ioctl_cmd * user_arg) : bool :=
  match req with (HETERO_IOC_RESET, _) => true | _ => false end.

(** Whether core [c] (0 or 1) has answered a ping since the last reset. *)
Fixpoint pinged (c : Z) (seen : bool) (reqs : list (ioctl_cmd * user_arg)) : bool :=
  match reqs with
  | [] => seen
  | (HETERO_IOC_PING_CORE, arg) :: reqs' =>
      pinged c (match u_int arg with
                | Some id => if id =? c then true else seen
                | None => seen
                end) reqs'
  | (HETERO_IOC_RESET, _) :: reqs' => pinged c false reqs'
  | _ :: reqs' => pinged c seen reqs'
  end.

Fixpoint count_requests (p : ioctl_cmd * user_arg -> bool)
    (reqs : list (ioctl_cmd * user_arg)) : Z :=
  match reqs with
  | [] => 0
  | req :: reqs' => (if p req then 1 else 0) + count_requests p reqs'
  end.

(** Requests on which the properties can be observed. *)
Definition sample_requests : list (ioctl_cmd * user_arg) :=
  [ (HETERO_IOC_PING_CORE, {| u_int := Some 0; u_msg := None; u_writable := false |});
    (HETERO_IOC_PING_CORE, {| u_int := Some 5; u_msg := None; u_writable := false |});
    (HETERO_IOC_SEND_MSG,
     {| u_int := None;
        u_msg := Some {| core_id := 7; cmd := 0x42; data := 0 |};
        u_writable := false |});
    (IOC_other, {| u_int := None; u_msg := None; u_writable := false |}) ].

End HeteroSoc.

(** The length of a concrete block, checked by evaluation. *)
Ltac mapped_by_computation := apply Nat.eqb_eq; vm_compute; reflexivity.

(** ** Facts about the memory model *)

Section MemFacts.

Lemma Z_of_byte_range (b : byte) : 0 <= Z_of_byte b < 256.
Proof.
  unfold Z_of_byte. pose proof (Byte.to_N_bounded b). lia.
Qed.

Lemma Z_of_byte_of_Z (z : Z) : Z_of_byte (byte_of_Z z) = z mod 256.
Proof.
  unfold Z_of_byte, byte_of_Z.
  assert (Hr : 0 <= z mod 256 < 256) by (apply Z.mod_pos_bound; lia).
  destruct (Byte.of_N (Z.to_N (z mod 256))) as [b|] eqn:E.
  - apply Byte.to_of_N in E. simpl. rewrite E. lia.
  - apply Byte.of_N_None_iff in E. lia.
Qed.

Lemma le_combine_range (bs : list byte) :
  0 <= le_combine bs < 256 ^ Z.of_nat (length bs).
Proof.
  induction bs as [|b bs IH].
  - simpl. lia.
  - cbn [le_combine length]. rewrite Nat2Z.inj_succ, Z.pow_succ_r by lia.
    pose proof (Z_of_byte_range b). nia.
Qed.

Lemma le_combine_split (n : nat) (v : Z) :
  le_combine (le_split n v) = v mod 256 ^ Z.of_nat n.
Proof.
  revert v. induction n as [|n IH]; intros v.
  - simpl. now rewrite Z.mod_1_r.
  - cbn [le_split le_combine]. rewrite IH, Z_of_byte_of_Z.
    rewrite Nat2Z.inj_succ, Z.pow_succ_r by lia.
    rewrite Z.rem_mul_r by lia. reflexivity.
Qed.

Lemma length_le_split (n : nat) (v : Z) : length (le_split n v) = n.
Proof. revert v. induction n; intros; simpl; auto. Qed.

Lemma length_write_bytes (m : list byte) p bs :
  length (write_bytes m p bs) = length m.
Proof.
  revert p bs. induction m as [|b m IH]; intros p bs; [reflexivity|].
  destruct p as [|p]; simpl; [|now rewrite IH].
  destruct bs; simpl; [reflexivity|now rewrite IH].
Qed.

(** Reading a byte the write did not reach. *)
Lemma lookup_write_bytes_out (m : list byte) p bs (j : nat) :
  (j < p \/ p + length bs <= j)%nat ->
  write_bytes m p bs !! j = m !! j.
Proof.
  revert p bs j. induction m as [|b m IH]; intros p bs j H; [reflexivity|].
  destruct p as [|p]; simpl.
  - destruct bs as [|c bs]; [reflexivity|].
    destruct j as [|j]; simpl in *; [lia|].
    apply IH. lia.
  - destruct j as [|j]; simpl; [reflexivity|].
    apply IH. lia.
Qed.

(** Reading a byte the write stored. *)
Lemma lookup_write_bytes_in (m : list byte) p bs (j : nat) :
  (p <= j < p + length bs)%nat -> (j < length m)%nat ->
  write_bytes m p bs !! j = bs !! (j - p)%nat.
Proof.
  revert p bs j. induction m as [|b m IH]; intros p bs j H Hl; [simpl in Hl; lia|].
  destruct p as [|p]; simpl.
  - destruct bs as [|c bs]; [simpl in H; lia|].
    destruct j as [|j]; simpl; [reflexivity|].
    simpl in H, Hl. rewrite IH by lia.
    now replace (j - 0)%nat with j by lia.
  - destruct j as [|j]; [lia|]. simpl in *.
    apply IH; lia.
Qed.

Lemma lookup_total_write_bytes_out (m : list byte) p bs (j : nat) :
  (j < p \/ p + length bs <= j)%nat ->
  write_bytes m p bs !!! j = m !!! j.
Proof.
  intros. now rewrite !list_lookup_total_alt, lookup_write_bytes_out.
Qed.

Lemma lookup_total_write_bytes_in (m : list byte) p bs (j : nat) :
  (p <= j < p + length bs)%nat -> (j < length m)%nat ->
  write_bytes m p bs !!! j = bs !!! (j - p)%nat.
Proof.
  intros. now rewrite !list_lookup_total_alt, lookup_write_bytes_in.
Qed.

Lemma load32_range (m : list byte) a : 0 <= load32 m a < 2 ^ 32.
Proof.
  unfold load32.
  pose proof (le_combine_range
    [m !!! a; m !!! (a + 1)%nat; m !!! (a + 2)%nat; m !!! (a + 3)%nat]) as H.
  simpl length in H. change (256 ^ Z.of_nat 4) with (2 ^ 32) in H. exact H.
Qed.

(** A write that does not overlap the four bytes of a register leaves
    the register as it was. *)
Lemma load32_write_bytes_disjoint (m : list byte) p bs a :
  (a + 4 <= p \/ p + length bs <= a)%nat ->
  load32 (write_bytes m p bs) a = load32 m a.
Proof.
  intros H. unfold load32.
  rewrite !lookup_total_write_bytes_out by lia. reflexivity.
Qed.

Lemma load32_store32_other (m : list byte) a b v :
  (a + 4 <= b \/ b + 4 <= a)%nat ->
  load32 (store32 m b v) a = load32 m a.
Proof.
  intros H. unfold store32. apply load32_write_bytes_disjoint.
  rewrite length_le_split. lia.
Qed.

Lemma load32_store32_same (m : list byte) a v :
  (a + 4 <= length m)%nat ->
  load32 (store32 m a v) a = v mod 2 ^ 32.
Proof.
  intros H. unfold load32, store32.
  rewrite !lookup_total_write_bytes_in by (rewrite ?length_le_split; lia).
  replace (a - a)%nat with 0%nat by lia.
  replace (a + 1 - a)%nat with 1%nat by lia.
  replace (a + 2 - a)%nat with 2%nat by lia.
  replace (a + 3 - a)%nat with 3%nat by lia.
  change (le_combine (le_split 4 v) = v mod 256 ^ Z.of_nat 4).
  apply le_combine_split.
Qed.

Lemma length_store32 (m : list byte) a v : length (store32 m a v) = length m.
Proof. apply length_write_bytes. Qed.

Lemma length_memset (m : list byte) p c n : length (memset m p c n) = length m.
Proof. apply length_write_bytes. Qed.

(** A register lying inside a zeroed range reads zero. *)
Lemma load32_memset_zero (m : list byte) p n a :
  (p <= a)%nat -> (a + 4 <= p + n)%nat -> (a + 4 <= length m)%nat ->
  load32 (memset m p x00 n) a = 0.
Proof.
  intros H1 H2 H3. unfold load32, memset.
  rewrite !lookup_total_write_bytes_in by (rewrite ?length_replicate; lia).
  rewrite !lookup_total_replicate_2 by lia. reflexivity.
Qed.

Lemma load32_memset_other (m : list byte) p c n a :
  (a + 4 <= p \/ p + n <= a)%nat ->
  load32 (memset m p c n) a = load32 m a.
Proof.
  intros H. unfold memset. apply load32_write_bytes_disjoint.
  rewrite length_replicate. lia.
Qed.

(** Writing the same bytes at the same place twice is writing them once. *)
Lemma write_bytes_idem (m : list byte) p bs :
  write_bytes (write_bytes m p bs) p bs = write_bytes m p bs.
Proof.
  revert p bs. induction m as [|b m IH]; intros p bs; [reflexivity|].
  destruct p as [|p]; simpl.
  - destruct bs as [|c bs]; simpl; [reflexivity|]. now rewrite IH.
  - now rewrite IH.
Qed.

(** A write that fits in the block replaces a slice of it. *)
Lemma write_bytes_at_start (m bs : list byte) :
  (length bs <= length m)%nat ->
  write_bytes m 0 bs = bs ++ drop (length bs) m.
Proof.
  revert bs. induction m as [|b m IH]; intros bs H.
  - destruct bs; [reflexivity|simpl in H; lia].
  - destruct bs as [|c bs]; [reflexivity|].
    simpl in H. cbn [write_bytes length drop app]. rewrite IH by lia. reflexivity.
Qed.

Lemma write_bytes_splice (m : list byte) p bs :
  (p + length bs <= length m)%nat ->
  write_bytes m p bs = take p m ++ bs ++ drop (p + length bs) m.
Proof.
  revert p. induction m as [|b m IH]; intros p H.
  - simpl in H. assert (p = 0%nat) by lia. subst p.
    destruct bs; [reflexivity|simpl in H; lia].
  - destruct p as [|p].
    + cbn [take app Nat.add]. now apply write_bytes_at_start.
    + simpl in H. cbn [write_bytes take app Nat.add drop].
      rewrite IH by lia. reflexivity.
Qed.

Lemma drop_write_bytes_beyond (m : list byte) p bs k :
  (p + length bs <= k)%nat ->
  drop k (write_bytes m p bs) = drop k m.
Proof.
  intros H. apply list_eq. intros i.
  rewrite !lookup_drop. apply lookup_write_bytes_out. lia.
Qed.

Lemma memset_whole (m : list byte) c :
  memset m 0 c (length m) = replicate (length m) c.
Proof.
  unfold memset. rewrite write_bytes_at_start by (rewrite length_replicate; lia).
  rewrite length_replicate, drop_all. apply app_nil_r.
Qed.

End MemFacts.

(** ** Facts about registers *)

Section RegFacts.

Lemma u32_small (z : Z) : 0 <= z < 2 ^ 32 -> u32 z = z.
Proof. intros H. unfold u32. now apply Z.mod_small. Qed.

Lemma u32_lor (a b : Z) : u32 (Z.lor a b) = Z.lor (u32 a) (u32 b).
Proof.
  unfold u32. rewrite <- !Z.land_ones by lia. apply Z.land_lor_distr_l.
Qed.

Lemma offsetof_in_bank (f : hw_field) : (offsetof f + 4 <= REG_SPACE_SIZE)%nat.
Proof. destruct f; vm_compute; lia. Qed.

Lemma offsetof_apart (f g : hw_field) :
  f <> g -> (offsetof f + 4 <= offsetof g \/ offsetof g + 4 <= offsetof f)%nat.
Proof. intros H. destruct f, g; try congruence; vm_compute; lia. Qed.

Lemma mapped_reg_in_block dev f :
  mapped dev -> (regs_offset + offsetof f + 4 <= length (mem_base dev))%nat.
Proof.
  unfold mapped, regs_offset. intros ->. pose proof (offsetof_in_bank f).
  unfold TOTAL_SIZE. lia.
Qed.

Lemma mapped_set_reg dev f v : mapped dev -> mapped (set_reg dev f v).
Proof. unfold mapped, set_reg. simpl. now rewrite length_store32. Qed.

Lemma mapped_REG_WRITE32 dev a v : mapped dev -> mapped (REG_WRITE32 dev a v).
Proof. unfold mapped, REG_WRITE32. simpl. now rewrite length_store32. Qed.

Lemma get_set_reg_same dev f v :
  mapped dev -> get_reg (set_reg dev f v) f = u32 v.
Proof.
  intros H. unfold get_reg, set_reg, u32. cbn [mem_base set_mem].
  apply load32_store32_same. now apply mapped_reg_in_block.
Qed.

Lemma get_set_reg_other dev f g v :
  f <> g -> get_reg (set_reg dev g v) f = get_reg dev f.
Proof.
  intros H. unfold get_reg, set_reg, regs_offset. cbn [mem_base set_mem].
  apply load32_store32_other. pose proof (offsetof_apart f g H). lia.
Qed.

Lemma get_reg_range dev f : 0 <= get_reg dev f < 2 ^ 32.
Proof. apply load32_range. Qed.

(** The published offset of a register is where the structure puts it. *)
Lemma REG_WRITE32_set_reg dev f v :
  REG_WRITE32 dev (regs_offset + offsetof f) v = set_reg dev f v.
Proof. reflexivity. Qed.

Lemma REG_READ32_get_reg dev f :
  REG_READ32 dev (regs_offset + offsetof f) = get_reg dev f.
Proof. reflexivity. Qed.

End RegFacts.

Create HintDb hetero.
#[global] Hint Resolve mapped_set_reg mapped_REG_WRITE32 : hetero.

(** Rewrites a register read through the writes before it. *)
Ltac reg_simpl :=
  repeat first
    [ rewrite get_set_reg_same by eauto 10 with hetero
    | rewrite get_set_reg_other by discriminate ].

(** ** Facts about the driver's operations *)

Section DriverFacts.

Lemma get_reg_set_core0_work dev b f :
  get_reg (set_core0_work dev b) f = get_reg dev f.
Proof. reflexivity. Qed.

Lemma get_reg_set_core1_work dev b f :
  get_reg (set_core1_work dev b) f = get_reg dev f.
Proof. reflexivity. Qed.

Lemma get_reg_set_ipi_count dev n f :
  get_reg (set_ipi_count dev n) f = get_reg dev f.
Proof. reflexivity. Qed.

Lemma get_reg_set_msg_count dev n f :
  get_reg (set_msg_count dev n) f = get_reg dev f.
Proof. reflexivity. Qed.

Lemma mapped_set_core0_work dev b : mapped dev -> mapped (set_core0_work dev b).
Proof. exact (fun H => H). Qed.

Lemma mapped_set_core1_work dev b : mapped dev -> mapped (set_core1_work dev b).
Proof. exact (fun H => H). Qed.

Lemma low_byte_range (j : Z) : 0 <= Z.land j 0xFF < 256.
Proof.
  change 0xFF with (Z.ones 8). rewrite Z.land_ones by lia.
  apply Z.mod_pos_bound. lia.
Qed.

Lemma u32_low_byte (j : Z) : u32 (Z.land j 0xFF) = Z.land j 0xFF.
Proof. apply u32_small. pose proof (low_byte_range j). lia. Qed.

Lemma u32_pow2 (c : Z) : 0 <= c < 32 -> u32 (2 ^ c) = 2 ^ c.
Proof.
  intros H. apply u32_small. split; [apply Z.pow_nonneg; lia|].
  apply Z.pow_lt_mono_r; lia.
Qed.

(** What [HETERO_IOC_SEND_IPI] does for a core number the shift is
    defined for, whether or not a core with that number exists. *)
Lemma send_ipi_effect dev (c : Z) :
  mapped dev -> 0 <= c < 32 ->
  exists d,
    hetero_ioctl dev HETERO_IOC_SEND_IPI (core_id_arg c) = Some (returns 0 d)
    /\ mapped d
    /\ get_reg d ipi_trigger = 2 ^ c
    /\ get_reg d ipi_status = Z.lor (get_reg dev ipi_status) (2 ^ c)
    /\ (forall f, f <> ipi_trigger -> f <> ipi_status -> get_reg d f = get_reg dev f)
    /\ ipi_count d = atomic_inc (ipi_count dev)
    /\ msg_count d = msg_count dev
    /\ core0_work d = (if c =? 0 then true else core0_work dev)
    /\ core1_work d = (if c =? 0 then core1_work dev
                       else if c =? 1 then true else core1_work dev).
Proof.
  intros Hm Hc. unfold hetero_ioctl, core_id_arg, shl_int. cbn [u_int].
  replace ((0 <=? c) && (c <? 32)) with true
    by (symmetry; apply andb_true_iff; split; [apply Z.leb_le|apply Z.ltb_lt]; lia).
  rewrite Z.shiftl_1_l.
  eexists. split; [reflexivity|].
  assert (Hframe : forall d f,
    get_reg (if c =? 0 then schedule_core0_work d
             else if c =? 1 then schedule_core1_work d else d) f = get_reg d f)
    by (intros; destruct (c =? 0), (c =? 1); reflexivity).
  repeat split.
  - unfold mapped.
    destruct (c =? 0), (c =? 1);
      cbn [mem_base schedule_core0_work schedule_core1_work set_core0_work
           set_core1_work set_ipi_count set_reg set_mem];
      rewrite !length_store32; exact Hm.
  - rewrite Hframe, get_reg_set_ipi_count. reg_simpl. now apply u32_pow2.
  - rewrite Hframe, get_reg_set_ipi_count. reg_simpl.
    rewrite u32_lor, (u32_small (get_reg dev ipi_status)) by apply get_reg_range.
    now rewrite !u32_pow2 by lia.
  - intros f Hf1 Hf2. rewrite Hframe, get_reg_set_ipi_count.
    now rewrite !get_set_reg_other by assumption.
  - destruct (c =? 0), (c =? 1); reflexivity.
  - destruct (c =? 0), (c =? 1); reflexivity.
  - destruct (c =? 0), (c =? 1); reflexivity.
  - destruct (c =? 0), (c =? 1); reflexivity.
Qed.

(** The answer of the I/O core to a pending command. *)
Lemma core0_response_pending dev (jiffies : Z) :
  mapped dev -> get_reg dev mbox_main_to_core0_cmd <> 0 ->
  let cmd := get_reg dev mbox_main_to_core0_cmd in
  let d := core0_response_work jiffies dev in
  get_reg d mbox_core0_to_main_resp =
    (if cmd =? 0x0001 then 0x8001
     else if cmd =? 0x0010 then Z.lor 0x8010 (Z.land jiffies 0xFF)
     else 0xFFFF)
  /\ get_reg d mbox_core0_to_main_status = 1
  /\ get_reg d mbox_main_to_core0_cmd = 0.
Proof.
  intros Hm Hcmd cmd d. subst d. unfold core0_response_work. fold cmd.
  destruct (cmd =? 0) eqn:E0; [apply Z.eqb_eq in E0; contradiction|].
  destruct (cmd =? 1) eqn:E1; [|destruct (cmd =? 16) eqn:E16];
    reg_simpl; repeat split; try reflexivity.
  rewrite u32_lor, u32_low_byte. reflexivity.
Qed.

(** The I/O core leaves the mailbox alone when no command is pending. *)
Lemma core0_response_idle dev (jiffies : Z) f :
  get_reg dev mbox_main_to_core0_cmd = 0 -> f <> ipi_status ->
  get_reg (core0_response_work jiffies dev) f = get_reg dev f.
Proof.
  intros Hcmd Hf. unfold core0_response_work. rewrite Hcmd. cbn [Z.eqb].
  now rewrite get_set_reg_other.
Qed.

(** The answer of the real-time core. *)
Lemma core1_response dev (jiffies : Z) :
  mapped dev ->
  let d := core1_response_work jiffies dev in
  get_reg d mbox_core1_to_main_resp = Z.lor 0x5200 (Z.land jiffies 0xFF)
  /\ get_reg d mbox_core1_to_main_status = 1
  /\ get_reg d mbox_main_to_core1_cmd = get_reg dev mbox_main_to_core1_cmd.
Proof.
  intros Hm d. subst d. unfold core1_response_work.
  reg_simpl. repeat split; try reflexivity.
  rewrite u32_lor, u32_low_byte. reflexivity.
Qed.

(** Registers a responder does not write. *)
Lemma core0_response_frame dev (jiffies : Z) f :
  f <> mbox_core0_to_main_resp -> f <> mbox_main_to_core0_cmd ->
  f <> mbox_core0_to_main_status -> f <> ipi_status ->
  get_reg (core0_response_work jiffies dev) f = get_reg dev f.
Proof.
  intros H1 H2 H3 H4. unfold core0_response_work.
  destruct (get_reg dev mbox_main_to_core0_cmd =? 0);
    [|destruct (get_reg dev mbox_main_to_core0_cmd =? 1);
      [|destruct (get_reg dev mbox_main_to_core0_cmd =? 16)]];
    now rewrite !get_set_reg_other by assumption.
Qed.

Lemma core1_response_frame dev (jiffies : Z) f :
  f <> mbox_core1_to_main_resp -> f <> mbox_core1_to_main_status ->
  f <> ipi_status ->
  get_reg (core1_response_work jiffies dev) f = get_reg dev f.
Proof.
  intros H1 H2 H3. unfold core1_response_work.
  now rewrite !get_set_reg_other by assumption.
Qed.

End DriverFacts.

(** ** Properties of the register bank and the control interface *)

(** C6.  The position of every register in the mapped block, as computed
    from the members of the packed structure, is the published one:
    the four IPI registers at 0x00, 0x04, 0x08 and 0x0C, the mailbox of the
    I/O core at 0x10 to 0x1C, the mailbox of the real-time core at 0x20 to
    0x2C, the mutex request, status and release registers at 0x30, 0x34
    and 0x38, and the shared memory from 0x1000 on. *)
Theorem register_offsets_published :
  (regs_offset + offsetof ipi_status = 0x00
   /\ regs_offset + offsetof ipi_trigger = 0x04
   /\ regs_offset + offsetof ipi_clear = 0x08
   /\ regs_offset + offsetof ipi_enable = 0x0C
   /\ regs_offset + offsetof mbox_main_to_core0_cmd = 0x10
   /\ regs_offset + offsetof mbox_main_to_core0_data = 0x14
   /\ regs_offset + offsetof mbox_core0_to_main_status = 0x18
   /\ regs_offset + offsetof mbox_core0_to_main_resp = 0x1C
   /\ regs_offset + offsetof mbox_main_to_core1_cmd = 0x20
   /\ regs_offset + offsetof mbox_main_to_core1_data = 0x24
   /\ regs_offset + offsetof mbox_core1_to_main_status = 0x28
   /\ regs_offset + offsetof mbox_core1_to_main_resp = 0x2C
   /\ regs_offset + offsetof hw_mutex_request = 0x30
   /\ regs_offset + offsetof hw_mutex_status = 0x34
   /\ regs_offset + offsetof hw_mutex_release = 0x38
   /\ shared_mem_offset = 0x1000)%nat.
Proof. repeat split; reflexivity. Qed.

(** The structure itself is 16 bytes short of the register space: the
    padding is declared with [4096 - 0x4C] bytes although the registers
    before it take 0x3C. *)
Lemma sizeof_hetero_hw_regs_value :
  (offsetof padding = 0x3C /\ sizeof_hetero_hw_regs = 4080
   /\ REG_SPACE_SIZE = 4096)%nat.
Proof. repeat split; reflexivity. Qed.

(** C10.  For a channel 0 or 1, [HETERO_IOC_SEND_IPI] assigns [1 << c] to
    [ipi_trigger], so the trigger bit of the other channel is clear after
    the call whatever it was before, and ORs [1 << c] into [ipi_status]. *)
Theorem send_ipi_assigns_trigger_ors_status dev (c : Z) :
  mapped dev -> c = 0 \/ c = 1 ->
  exists r,
    hetero_ioctl dev HETERO_IOC_SEND_IPI (core_id_arg c) = Some r
    /\ ret r = 0
    /\ get_reg (dev_after r) ipi_trigger = Z.shiftl 1 c
    /\ Z.testbit (get_reg (dev_after r) ipi_trigger) (1 - c) = false
    /\ get_reg (dev_after r) ipi_status
       = Z.lor (get_reg dev ipi_status) (Z.shiftl 1 c).
Proof.
  intros Hm Hc.
  destruct (send_ipi_effect dev c Hm) as (d & E & _ & Ht & Hs & _); [lia|].
  exists (returns 0 d). cbn [ret dev_after returns].
  rewrite Z.shiftl_1_l, Ht, Hs. repeat split; try assumption.
  apply Z.pow2_bits_false. lia.
Qed.

(** An instance: channel 0 is signalled while the trigger bit of channel 1
    is set. *)
Lemma send_ipi_assigns_trigger_ors_status_witness :
  mapped (set_reg booted ipi_trigger 0x2)
  /\ (0 = 0 \/ 0 = 1)
  /\ exists r,
       hetero_ioctl (set_reg booted ipi_trigger 0x2) HETERO_IOC_SEND_IPI
         (core_id_arg 0) = Some r
       /\ ret r = 0
       /\ get_reg (dev_after r) ipi_trigger = Z.shiftl 1 0
       /\ Z.testbit (get_reg (dev_after r) ipi_trigger) (1 - 0) = false
       /\ get_reg (dev_after r) ipi_status
          = Z.lor (get_reg (set_reg booted ipi_trigger 0x2) ipi_status)
                  (Z.shiftl 1 0).
Proof.
  assert (Hm : mapped (set_reg booted ipi_trigger 0x2)) by mapped_by_computation.
  split; [exact Hm|]. split; [left; reflexivity|].
  apply (send_ipi_assigns_trigger_ors_status _ 0 Hm). left; reflexivity.
Defined.

(** C9.  Resetting twice in a row leaves the device (every byte of the
    block, hence every register, both counters and the work items) as
    resetting once does. *)
Theorem reset_idempotent dev (arg1 arg2 : user_ptr) :
  exists r1 r2,
    hetero_ioctl dev HETERO_IOC_RESET arg1 = Some r1
    /\ hetero_ioctl (dev_after r1) HETERO_IOC_RESET arg2 = Some r2
    /\ ret r1 = 0 /\ ret r2 = 0
    /\ dev_after r2 = dev_after r1.
Proof.
  do 2 eexists. split; [reflexivity|]. split; [reflexivity|].
  cbn [ret dev_after returns]. repeat split.
  unfold set_msg_count, set_ipi_count, set_mem.
  cbn [mem_base core0_work core1_work ipi_count msg_count].
  unfold memset. now rewrite write_bytes_idem.
Qed.

(** C2.  [HETERO_IOC_RESET] returns 0 and zeroes both counters and every
    register of the structure, [ipi_enable] and [hw_mutex_status]
    included: the defaults 0x3 and 0xFFFF of the initialisation are not
    put back.  The bytes of the register space that lie behind the
    structure (from offset 4080 on) keep their contents. *)
Theorem reset_loses_defaults dev (arg : user_ptr) :
  mapped dev ->
  exists r,
    hetero_ioctl dev HETERO_IOC_RESET arg = Some r
    /\ ret r = 0
    /\ (forall f, get_reg (dev_after r) f = 0)
    /\ get_reg (dev_after r) ipi_enable = 0
    /\ get_reg (dev_after r) hw_mutex_status = 0
    /\ ipi_count (dev_after r) = 0
    /\ msg_count (dev_after r) = 0
    /\ (forall a : nat, (sizeof_hetero_hw_regs <= a)%nat ->
          REG_READ32 (dev_after r) a = REG_READ32 dev a).
Proof.
  intros Hm. eexists. split; [reflexivity|].
  cbn [ret dev_after returns].
  assert (Hz : forall f,
    get_reg (set_msg_count (set_ipi_count
      (set_mem dev (memset (mem_base dev) regs_offset x00 sizeof_hetero_hw_regs)) 0) 0) f
    = 0).
  { intros f. unfold get_reg. cbn [mem_base set_msg_count set_ipi_count set_mem].
    apply load32_memset_zero.
    - unfold regs_offset. lia.
    - destruct f; vm_compute; lia.
    - now apply mapped_reg_in_block. }
  repeat split; try apply Hz.
  intros a Ha. unfold REG_READ32. cbn [mem_base set_msg_count set_ipi_count set_mem].
  apply load32_memset_other. unfold regs_offset. lia.
Qed.

(** An instance: a freshly loaded module, with a word stored at offset
    0xFF0 through the mapping, is reset. *)
Lemma reset_loses_defaults_witness :
  mapped (REG_WRITE32 booted 0xFF0 0xDEADBEEF)
  /\ get_reg (REG_WRITE32 booted 0xFF0 0xDEADBEEF) ipi_enable = 0x3
  /\ get_reg (REG_WRITE32 booted 0xFF0 0xDEADBEEF) hw_mutex_status = 0xFFFF
  /\ REG_READ32 (REG_WRITE32 booted 0xFF0 0xDEADBEEF) 0xFF0 = 0xDEADBEEF
  /\ exists r,
       hetero_ioctl (REG_WRITE32 booted 0xFF0 0xDEADBEEF) HETERO_IOC_RESET null_arg
         = Some r
       /\ ret r = 0
       /\ (forall f, get_reg (dev_after r) f = 0)
       /\ get_reg (dev_after r) ipi_enable = 0
       /\ get_reg (dev_after r) hw_mutex_status = 0
       /\ ipi_count (dev_after r) = 0
       /\ msg_count (dev_after r) = 0
       /\ (forall a : nat, (sizeof_hetero_hw_regs <= a)%nat ->
             REG_READ32 (dev_after r) a
             = REG_READ32 (REG_WRITE32 booted 0xFF0 0xDEADBEEF) a).
Proof.
  assert (Hm : mapped (REG_WRITE32 booted 0xFF0 0xDEADBEEF)) by mapped_by_computation.
  split; [exact Hm|].
  split; [vm_compute; reflexivity|]. split; [vm_compute; reflexivity|].
  split; [vm_compute; reflexivity|].
  exact (reset_loses_defaults _ null_arg Hm).
Defined.

(** C3.  A core number from 2 to 31 is not refused: the request returns 0,
    [ipi_trigger] holds [1 << core_id], the same bit is set in
    [ipi_status], [ipi_count] has been incremented, and no work item is
    scheduled. *)
Theorem send_ipi_accepts_other_cores dev (core_id : Z) :
  mapped dev -> 2 <= core_id < 32 ->
  exists r,
    hetero_ioctl dev HETERO_IOC_SEND_IPI (core_id_arg core_id) = Some r
    /\ ret r = 0
    /\ get_reg (dev_after r) ipi_trigger = 2 ^ core_id
    /\ Z.testbit (get_reg (dev_after r) ipi_status) core_id = true
    /\ ipi_count (dev_after r) = atomic_inc (ipi_count dev)
    /\ core0_work (dev_after r) = core0_work dev
    /\ core1_work (dev_after r) = core1_work dev.
Proof.
  intros Hm Hc.
  destruct (send_ipi_effect dev core_id Hm)
    as (d & E & _ & Ht & Hs & _ & Hn & _ & H0 & H1); [lia|].
  exists (returns 0 d). cbn [ret dev_after returns].
  assert (E0 : (core_id =? 0) = false) by (apply Z.eqb_neq; lia).
  assert (E1 : (core_id =? 1) = false) by (apply Z.eqb_neq; lia).
  rewrite E0 in H0, H1. rewrite E1 in H1.
  repeat split; try assumption.
  rewrite Hs, Z.lor_spec, Z.pow2_bits_true by lia. apply orb_true_r.
Qed.

(** An instance: core number 2 on a freshly loaded module. *)
Lemma send_ipi_accepts_other_cores_witness :
  mapped booted
  /\ 2 <= 2 < 32
  /\ exists r,
       hetero_ioctl booted HETERO_IOC_SEND_IPI (core_id_arg 2) = Some r
       /\ ret r = 0
       /\ get_reg (dev_after r) ipi_trigger = 2 ^ 2
       /\ Z.testbit (get_reg (dev_after r) ipi_status) 2 = true
       /\ ipi_count (dev_after r) = atomic_inc (ipi_count booted)
       /\ core0_work (dev_after r) = core0_work booted
       /\ core1_work (dev_after r) = core1_work booted.
Proof.
  assert (Hm : mapped booted) by mapped_by_computation.
  split; [exact Hm|]. split; [lia|].
  apply (send_ipi_accepts_other_cores booted 2 Hm). lia.
Defined.

(** ** Properties of the mailbox protocol *)

Lemma write_mailbox_regs (c cmd data : Z) dev :
  c = 0 \/ c = 1 ->
  write_mailbox c cmd data dev
  = set_reg (set_reg dev (mbox_data c) data) (mbox_cmd c) cmd.
Proof. intros [-> | ->]; reflexivity. Qed.

(** C1, as stated, fails on channel 1: after the command 0x0001 has been
    written to the mailbox of the real-time core, the interrupt sent and
    the responder run (tick counter 0), the response register holds 0x5200,
    not 0x8001. *)
Lemma ping_channel1_not_pong :
  exists r d,
    hetero_ioctl (write_mailbox 1 0x0001 0x12345678 booted)
      HETERO_IOC_SEND_IPI (core_id_arg 1) = Some r
    /\ run_work 1 0 (dev_after r) = Some d
    /\ get_reg d (mbox_status 1) = 1
    /\ get_reg d (mbox_resp 1) = 0x5200
    /\ get_reg d (mbox_resp 1) <> 0x8001.
Proof.
  do 2 eexists. split; [reflexivity|]. split; [reflexivity|].
  split; [vm_compute; reflexivity|]. split; [vm_compute; reflexivity|].
  vm_compute. discriminate.
Qed.

(** C1, amended.  For a channel [c] of 0 or 1: once the command 0x0001 and
    a data word are in the mailbox of [c] and the interrupt is sent, the
    responder of [c] is pending, and when it has run the status register
    of [c] is 1 and the response register of [c] holds 0x8001 on channel 0
    and [0x5200 | (jiffies & 0xFF)] on channel 1. *)
Theorem ping_answer dev (c data jiffies : Z) :
  mapped dev -> c = 0 \/ c = 1 ->
  exists r d,
    hetero_ioctl (write_mailbox c 0x0001 data dev)
      HETERO_IOC_SEND_IPI (core_id_arg c) = Some r
    /\ ret r = 0
    /\ run_work c jiffies (dev_after r) = Some d
    /\ get_reg d (mbox_status c) = 1
    /\ get_reg d (mbox_resp c)
       = (if c =? 0 then 0x8001 else Z.lor 0x5200 (Z.land jiffies 0xFF)).
Proof.
  intros Hm Hc. rewrite write_mailbox_regs by assumption.
  set (dev1 := set_reg (set_reg dev (mbox_data c) data) (mbox_cmd c) 1).
  assert (Hm1 : mapped dev1) by (subst dev1; eauto with hetero).
  destruct (send_ipi_effect dev1 c Hm1)
    as (d & E & Hmd & _ & _ & Hframe & _ & _ & H0 & H1); [lia|].
  exists (returns 0 d). cbn [ret dev_after returns].
  destruct Hc as [-> | ->]; cbn [Z.eqb Pos.eqb] in *; unfold run_work; cbn [Z.eqb].
  - unfold run_core0_work. rewrite H0. eexists.
    split; [exact E|]. split; [reflexivity|]. split; [reflexivity|].
    assert (Hcmd : get_reg (set_core0_work d false) mbox_main_to_core0_cmd = 1).
    { rewrite get_reg_set_core0_work, Hframe by discriminate.
      subst dev1. unfold mbox_cmd. cbn [Z.eqb]. now rewrite get_set_reg_same by eauto with hetero. }
    destruct (core0_response_pending (set_core0_work d false) jiffies)
      as (Hr & Hs & _); [exact Hmd|rewrite Hcmd; discriminate|].
    rewrite Hcmd in Hr. split; [exact Hs|exact Hr].
  - unfold run_core1_work. rewrite H1. eexists.
    split; [exact E|]. split; [reflexivity|]. split; [reflexivity|].
    destruct (core1_response (set_core1_work d false) jiffies)
      as (Hr & Hs & _); [exact Hmd|].
    split; [exact Hs|exact Hr].
Qed.

(** An instance: the I/O core is pinged on a freshly loaded module. *)
Lemma ping_answer_witness :
  mapped booted
  /\ (0 = 0 \/ 0 = 1)
  /\ exists r d,
       hetero_ioctl (write_mailbox 0 0x0001 0x12345678 booted)
         HETERO_IOC_SEND_IPI (core_id_arg 0) = Some r
       /\ ret r = 0
       /\ run_work 0 0x1234 (dev_after r) = Some d
       /\ get_reg d (mbox_status 0) = 1
       /\ get_reg d (mbox_resp 0)
          = (if 0 =? 0 then 0x8001 else Z.lor 0x5200 (Z.land 0x1234 0xFF)).
Proof.
  assert (Hm : mapped booted) by mapped_by_computation.
  split; [exact Hm|]. split; [left; reflexivity|].
  apply (ping_answer booted 0 0x12345678 0x1234 Hm). left; reflexivity.
Defined.

(** C5, as stated, fails on channel 1: with the unknown command 0x0002
    pending in the mailbox of the real-time core, its responder (tick
    counter 0) writes 0x5200, not 0xFFFF. *)
Lemma unknown_command_channel1_not_ffff :
  get_reg (set_reg booted (mbox_cmd 1) 0x0002) (mbox_cmd 1) = 0x0002
  /\ get_reg (response_work 1 0 (set_reg booted (mbox_cmd 1) 0x0002)) (mbox_resp 1)
     = 0x5200
  /\ get_reg (response_work 1 0 (set_reg booted (mbox_cmd 1) 0x0002)) (mbox_resp 1)
     <> 0xFFFF.
Proof.
  split; [vm_compute; reflexivity|]. split; [vm_compute; reflexivity|].
  vm_compute. discriminate.
Qed.

(** C5, amended.  For a channel [c] of 0 or 1 and a command other than
    0x0000, 0x0001 and 0x0010 pending in the mailbox of [c] when the
    responder of [c] runs, the response register of [c] then holds 0xFFFF
    on channel 0 and [0x5200 | (jiffies & 0xFF)] on channel 1. *)
Theorem unknown_command_answer dev (c cmd jiffies : Z) :
  mapped dev -> c = 0 \/ c = 1 ->
  get_reg dev (mbox_cmd c) = cmd ->
  cmd <> 0x0000 -> cmd <> 0x0001 -> cmd <> 0x0010 ->
  get_reg (response_work c jiffies dev) (mbox_resp c)
  = (if c =? 0 then 0xFFFF else Z.lor 0x5200 (Z.land jiffies 0xFF)).
Proof.
  intros Hm [-> | ->] Hcmd H0 H1 H16; unfold response_work, mbox_resp;
    cbn [Z.eqb]; unfold mbox_cmd in Hcmd; cbn [Z.eqb] in Hcmd.
  - destruct (core0_response_pending dev jiffies Hm) as (Hr & _);
      [rewrite Hcmd; exact H0|].
    rewrite Hr, Hcmd.
    apply Z.eqb_neq in H1, H16. now rewrite H1, H16.
  - now destruct (core1_response dev jiffies Hm) as (Hr & _).
Qed.

(** An instance: command 0x0002 pending for the I/O core. *)
Lemma unknown_command_answer_witness :
  mapped (set_reg booted (mbox_cmd 0) 0x0002)
  /\ (0 = 0 \/ 0 = 1)
  /\ get_reg (set_reg booted (mbox_cmd 0) 0x0002) (mbox_cmd 0) = 0x0002
  /\ 0x0002 <> 0x0000 /\ 0x0002 <> 0x0001 /\ 0x0002 <> 0x0010
  /\ get_reg (response_work 0 0x1234 (set_reg booted (mbox_cmd 0) 0x0002)) (mbox_resp 0)
     = (if 0 =? 0 then 0xFFFF else Z.lor 0x5200 (Z.land 0x1234 0xFF)).
Proof.
  assert (Hm : mapped (set_reg booted (mbox_cmd 0) 0x0002)) by mapped_by_computation.
  assert (Hc : get_reg (set_reg booted (mbox_cmd 0) 0x0002) (mbox_cmd 0) = 0x0002)
    by (vm_compute; reflexivity).
  split; [exact Hm|]. split; [left; reflexivity|]. split; [exact Hc|].
  split; [lia|]. split; [lia|]. split; [lia|].
  apply (unknown_command_answer _ 0 0x0002 0x1234 Hm); [left; reflexivity|exact Hc|lia..].
Defined.

(** Every value of a byte satisfies a property checked on 0 to 255. *)
Lemma low_byte_cases (P : Z -> bool) :
  forallb P (seqZ 0 256) = true ->
  forall b, 0 <= b < 256 -> P b = true.
Proof.
  intros H b Hb. rewrite forallb_forall in H. apply H.
  apply list_elem_of_In, elem_of_seqZ. lia.
Qed.

(** C7, as stated, fails: with the command 0x0010 pending and the tick
    counter at 0 the I/O core writes 0x8010, a value whose high 16 bits
    are 0, not 0x8010. *)
Lemma status_query_high_half_zero :
  get_reg (set_reg booted mbox_main_to_core0_cmd 0x0010) mbox_main_to_core0_cmd
  = 0x0010
  /\ get_reg (core0_response_work 0 (set_reg booted mbox_main_to_core0_cmd 0x0010))
       mbox_core0_to_main_resp = 0x8010
  /\ Z.shiftr
       (get_reg (core0_response_work 0 (set_reg booted mbox_main_to_core0_cmd 0x0010))
          mbox_core0_to_main_resp) 16 <> 0x8010.
Proof.
  split; [vm_compute; reflexivity|]. split; [vm_compute; reflexivity|].
  vm_compute. discriminate.
Qed.

(** C7, amended.  For every run of the I/O core's responder that finds the
    command 0x0010 pending, the response register then holds
    [0x8010 | (jiffies & 0xFF)]: the high 16 bits of the 32-bit value are 0,
    the bits above the low byte are 0x80, both bits of 0x8010 are set, and
    the low byte is [0x10 | (jiffies & 0xFF)], the only part that varies
    with the tick counter. *)
Theorem status_query_answer dev (jiffies : Z) :
  mapped dev -> get_reg dev mbox_main_to_core0_cmd = 0x0010 ->
  let resp := get_reg (core0_response_work jiffies dev) mbox_core0_to_main_resp in
  resp = Z.lor 0x8010 (Z.land jiffies 0xFF)
  /\ Z.shiftr resp 16 = 0
  /\ Z.shiftr resp 8 = 0x80
  /\ Z.land resp 0x8010 = 0x8010
  /\ Z.land resp 0xFF = Z.lor 0x10 (Z.land jiffies 0xFF).
Proof.
  intros Hm Hcmd resp.
  destruct (core0_response_pending dev jiffies Hm) as (Hr & _);
    [rewrite Hcmd; discriminate|].
  rewrite Hcmd in Hr. cbn [Z.eqb Pos.eqb] in Hr. fold resp in Hr.
  split; [exact Hr|]. rewrite Hr.
  pose proof (low_byte_range jiffies) as Hb.
  set (b := Z.land jiffies 0xFF) in *.
  pose proof (low_byte_cases
    (fun b => (Z.shiftr (Z.lor 0x8010 b) 16 =? 0)
              && (Z.shiftr (Z.lor 0x8010 b) 8 =? 0x80)
              && (Z.land (Z.lor 0x8010 b) 0x8010 =? 0x8010)
              && (Z.land (Z.lor 0x8010 b) 0xFF =? Z.lor 0x10 b))
    ltac:(vm_compute; reflexivity) b Hb) as H.
  cbv beta in H. rewrite !andb_true_iff in H.
  destruct H as (((H1 & H2) & H3) & H4).
  apply Z.eqb_eq in H1, H2, H3, H4. auto.
Qed.

(** An instance: the status query answered at tick 0x12FF. *)
Lemma status_query_answer_witness :
  mapped (set_reg booted mbox_main_to_core0_cmd 0x0010)
  /\ get_reg (set_reg booted mbox_main_to_core0_cmd 0x0010) mbox_main_to_core0_cmd
     = 0x0010
  /\ let resp :=
       get_reg (core0_response_work 0x12FF
                  (set_reg booted mbox_main_to_core0_cmd 0x0010))
         mbox_core0_to_main_resp in
     resp = Z.lor 0x8010 (Z.land 0x12FF 0xFF)
     /\ Z.shiftr resp 16 = 0
     /\ Z.shiftr resp 8 = 0x80
     /\ Z.land resp 0x8010 = 0x8010
     /\ Z.land resp 0xFF = Z.lor 0x10 (Z.land 0x12FF 0xFF).
Proof.
  assert (Hm : mapped (set_reg booted mbox_main_to_core0_cmd 0x0010))
    by mapped_by_computation.
  assert (Hc : get_reg (set_reg booted mbox_main_to_core0_cmd 0x0010)
                 mbox_main_to_core0_cmd = 0x0010) by (vm_compute; reflexivity).
  split; [exact Hm|]. split; [exact Hc|].
  exact (status_query_answer _ 0x12FF Hm Hc).
Defined.

(** ** Properties of the initialisation *)

Lemma shared_mem_banner_length :
  length (list_byte_of_string shared_mem_banner) = 42%nat.
Proof. reflexivity. Qed.

Lemma hetero_init_boot_env :
  fst (hetero_init boot_env) = 0 /\ snd (hetero_init boot_env) = Some booted.
Proof. split; reflexivity. Qed.

(** C8, as stated, fails: on a freshly loaded module the first byte of the
    shared memory is the character '6' (0x36), not zero. *)
Lemma shared_memory_not_all_zero :
  shared_mem booted !! 0%nat = Some x36
  /\ ~ (forall (i : nat) (b : byte), shared_mem booted !! i = Some b -> b = x00).
Proof.
  assert (H : shared_mem booted !! 0%nat = Some x36) by (vm_compute; reflexivity).
  split; [exact H|]. intros Hall. specialize (Hall 0%nat x36 H). discriminate.
Qed.

(** C8, amended.  When the module initialises (whatever the allocated block
    held before), the shared memory region consists of the 42 characters
    of the banner followed by zero bytes up to its 32 KiB. *)
Theorem shared_memory_at_creation env block (r : Z) dev :
  kmalloc_block env = Some block -> length block = TOTAL_SIZE ->
  hetero_init env = (r, Some dev) ->
  shared_mem dev
  = list_byte_of_string shared_mem_banner
    ++ replicate (SHARED_MEM_SIZE - 42) x00.
Proof.
  intros Hb Hl Hinit. unfold hetero_init in Hinit. rewrite Hb in Hinit.
  destruct (negb (kzalloc_ok env)); [discriminate|].
  destruct (register_ret env =? 0); [|discriminate].
  injection Hinit as _ <-. unfold shared_mem. cbn [mem_base].
  rewrite <- Hl at 1. rewrite memset_whole, Hl.
  set (m := store32 (store32 (replicate TOTAL_SIZE x00) _ _) _ _).
  assert (Hm : length m = TOTAL_SIZE)
    by (subst m; now rewrite !length_store32, length_replicate).
  assert (Htail : drop (shared_mem_offset + 43) m
                  = replicate (SHARED_MEM_SIZE - 43) x00).
  { subst m. unfold store32.
    rewrite !drop_write_bytes_beyond
      by (rewrite length_le_split; vm_compute; lia).
    rewrite drop_replicate. f_equal. }
  unfold sprintf.
  assert (Hlen : length (list_byte_of_string shared_mem_banner ++ [x00]) = 43%nat)
    by reflexivity.
  rewrite write_bytes_splice
    by (rewrite Hlen, Hm; unfold shared_mem_offset, TOTAL_SIZE, REG_SPACE_SIZE,
          SHARED_MEM_SIZE; lia).
  rewrite Hlen, Htail.
  rewrite drop_app_length'
    by (rewrite length_take, Hm; unfold shared_mem_offset, TOTAL_SIZE,
          REG_SPACE_SIZE, SHARED_MEM_SIZE; lia).
  rewrite take_ge
    by (rewrite length_app, Hlen, length_replicate; unfold SHARED_MEM_SIZE; lia).
  rewrite <- app_assoc.
  apply (f_equal (app (list_byte_of_string shared_mem_banner))).
  replace (SHARED_MEM_SIZE - 42)%nat with (S (SHARED_MEM_SIZE - 43))
    by (unfold SHARED_MEM_SIZE; lia).
  reflexivity.
Qed.

(** An instance: the block comes back from the allocator filled with 0x6b. *)
Lemma shared_memory_at_creation_witness :
  kmalloc_block boot_env = Some (replicate TOTAL_SIZE x6b)
  /\ length (replicate TOTAL_SIZE x6b) = TOTAL_SIZE
  /\ hetero_init boot_env = (0, Some booted)
  /\ shared_mem booted
     = list_byte_of_string shared_mem_banner
       ++ replicate (SHARED_MEM_SIZE - 42) x00.
Proof.
  assert (Hl : length (replicate TOTAL_SIZE x6b) = TOTAL_SIZE)
    by (apply Nat.eqb_eq; vm_compute; reflexivity).
  split; [reflexivity|]. split; [exact Hl|]. split; [reflexivity|].
  exact (shared_memory_at_creation boot_env _ 0 booted eq_refl Hl eq_refl).
Defined.

(** ** Properties of the mutex registers *)

(** C4, as stated, fails.  On a freshly loaded module lock 0 is free;
    after it has been requested its bit in [hw_mutex_status] is still set
    (the register still reads 0xFFFF).  After a reset lock 0 reads as held;
    after it has been released its bit is still clear. *)
Lemma mutex_status_ignores_request_and_release :
  Z.testbit (REG_READ32 booted HW_MUTEX_STATUS_OFFSET) 0 = true
  /\ Z.testbit (REG_READ32 (mutex_request 0x01 booted) HW_MUTEX_STATUS_OFFSET) 0 = true
  /\ REG_READ32 (mutex_request 0x01 booted) HW_MUTEX_STATUS_OFFSET = 0xFFFF
  /\ Z.testbit (REG_READ32 booted_reset HW_MUTEX_STATUS_OFFSET) 0 = false
  /\ Z.testbit (REG_READ32 (mutex_release 0x01 booted_reset) HW_MUTEX_STATUS_OFFSET) 0
     = false.
Proof. repeat split; vm_compute; reflexivity. Qed.

(** C4, amended.  For every 32-bit mask, requesting or releasing stores
    the mask in [hw_mutex_request], respectively [hw_mutex_release], and
    leaves [hw_mutex_status] as it was; the responders of both cores and
    the interrupt request leave [hw_mutex_status] as it was too. *)
Theorem mutex_registers_only_store dev (mask : Z) :
  mapped dev -> 0 <= mask < 2 ^ 32 ->
  REG_READ32 (mutex_request mask dev) HW_MUTEX_REQUEST_OFFSET = mask
  /\ REG_READ32 (mutex_request mask dev) HW_MUTEX_STATUS_OFFSET
     = REG_READ32 dev HW_MUTEX_STATUS_OFFSET
  /\ REG_READ32 (mutex_release mask dev) HW_MUTEX_RELEASE_OFFSET = mask
  /\ REG_READ32 (mutex_release mask dev) HW_MUTEX_STATUS_OFFSET
     = REG_READ32 dev HW_MUTEX_STATUS_OFFSET
  /\ (forall jiffies,
        get_reg (core0_response_work jiffies dev) hw_mutex_status
        = get_reg dev hw_mutex_status)
  /\ (forall jiffies,
        get_reg (core1_response_work jiffies dev) hw_mutex_status
        = get_reg dev hw_mutex_status)
  /\ (forall core_id r,
        hetero_ioctl dev HETERO_IOC_SEND_IPI (core_id_arg core_id) = Some r ->
        get_reg (dev_after r) hw_mutex_status = get_reg dev hw_mutex_status).
Proof.
  intros Hm Hmask.
  change (mutex_request mask dev) with (set_reg dev hw_mutex_request mask).
  change (mutex_release mask dev) with (set_reg dev hw_mutex_release mask).
  change (REG_READ32 ?d HW_MUTEX_REQUEST_OFFSET) with (get_reg d hw_mutex_request).
  change (REG_READ32 ?d HW_MUTEX_RELEASE_OFFSET) with (get_reg d hw_mutex_release).
  change (REG_READ32 ?d HW_MUTEX_STATUS_OFFSET) with (get_reg d hw_mutex_status).
  reg_simpl. rewrite u32_small by assumption.
  repeat split.
  - intros j. now apply core0_response_frame.
  - intros j. now apply core1_response_frame.
  - intros core_id r E.
    unfold hetero_ioctl, core_id_arg, shl_int in E. cbn [u_int] in E.
    destruct ((0 <=? core_id) && (core_id <? 32)) eqn:Hc; [|discriminate].
    apply andb_true_iff in Hc. destruct Hc as [H0 H32].
    apply Z.leb_le in H0. apply Z.ltb_lt in H32.
    destruct (send_ipi_effect dev core_id Hm) as (d & E' & _ & _ & _ & Hframe & _); [lia|].
    unfold hetero_ioctl, core_id_arg, shl_int in E'. cbn [u_int] in E'.
    replace ((0 <=? core_id) && (core_id <? 32)) with true in E'
      by (symmetry; apply andb_true_iff; split; [apply Z.leb_le|apply Z.ltb_lt]; lia).
    rewrite E' in E. injection E as <-. cbn [dev_after returns].
    now apply Hframe.
Qed.

(** An instance: lock 0 requested and released on a freshly loaded module. *)
Lemma mutex_registers_only_store_witness :
  mapped booted
  /\ 0 <= 0x01 < 2 ^ 32
  /\ REG_READ32 (mutex_request 0x01 booted) HW_MUTEX_REQUEST_OFFSET = 0x01
  /\ REG_READ32 (mutex_request 0x01 booted) HW_MUTEX_STATUS_OFFSET
     = REG_READ32 booted HW_MUTEX_STATUS_OFFSET
  /\ REG_READ32 (mutex_release 0x01 booted) HW_MUTEX_RELEASE_OFFSET = 0x01
  /\ REG_READ32 (mutex_release 0x01 booted) HW_MUTEX_STATUS_OFFSET
     = REG_READ32 booted HW_MUTEX_STATUS_OFFSET.
Proof.
  assert (Hm : mapped booted) by mapped_by_computation.
  assert (Hr : 0 <= 0x01 < 2 ^ 32) by lia.
  split; [exact Hm|]. split; [exact Hr|].
  destruct (mutex_registers_only_store booted 0x01 Hm Hr) as (H1 & H2 & H3 & H4 & _).
  auto.
Defined.


(** * Further properties of the driver *)

(** ** More facts about the memory model *)

Section MoreMemFacts.

(** A later write of the same length at the same place hides the earlier
    one. *)
Lemma write_bytes_overwrite (m : list byte) p bs bs' :
  length bs = length bs' ->
  write_bytes (write_bytes m p bs) p bs' = write_bytes m p bs'.
Proof.
  intros Hl. apply list_eq. intros j.
  destruct (decide (j < length m)%nat) as [Hj|Hj].
  - destruct (decide (p <= j < p + length bs')%nat) as [Hin|Hout].
    + rewrite !lookup_write_bytes_in by (rewrite ?length_write_bytes; lia).
      reflexivity.
    + rewrite !lookup_write_bytes_out by lia. reflexivity.
  - rewrite !lookup_ge_None_2 by (rewrite ?length_write_bytes; lia).
    reflexivity.
Qed.

(** Writes to separate places can be made in either order. *)
Lemma write_bytes_commute (m : list byte) p bs q cs :
  (p + length bs <= q \/ q + length cs <= p)%nat ->
  write_bytes (write_bytes m p bs) q cs = write_bytes (write_bytes m q cs) p bs.
Proof.
  intros Hd. apply list_eq. intros j.
  destruct (decide (j < length m)%nat) as [Hj|Hj].
  - destruct (decide (q <= j < q + length cs)%nat) as [Hq|Hq].
    + rewrite lookup_write_bytes_in by (rewrite ?length_write_bytes; lia).
      rewrite lookup_write_bytes_out by lia.
      now rewrite lookup_write_bytes_in by lia.
    + rewrite lookup_write_bytes_out by lia.
      destruct (decide (p <= j < p + length bs)%nat) as [Hp|Hp].
      * rewrite !lookup_write_bytes_in by (rewrite ?length_write_bytes; lia).
        reflexivity.
      * rewrite !lookup_write_bytes_out by lia. reflexivity.
  - rewrite !lookup_ge_None_2 by (rewrite ?length_write_bytes; lia).
    reflexivity.
Qed.

Lemma store32_overwrite (m : list byte) a v w :
  store32 (store32 m a v) a w = store32 m a w.
Proof.
  unfold store32. apply write_bytes_overwrite. now rewrite !length_le_split.
Qed.

Lemma store32_commute (m : list byte) a v b w :
  (a + 4 <= b \/ b + 4 <= a)%nat ->
  store32 (store32 m a v) b w = store32 (store32 m b w) a v.
Proof.
  intros H. unfold store32. apply write_bytes_commute.
  rewrite !length_le_split. lia.
Qed.

Lemma load32_replicate_zero (n a : nat) :
  (a + 4 <= n)%nat -> load32 (replicate n x00) a = 0.
Proof.
  intros H. unfold load32. rewrite !lookup_total_replicate_2 by lia. reflexivity.
Qed.

(** Clearing bit [k] of a 32-bit value the way the C code does, with the
    mask [~(1 << k)] converted to [u32]. *)
Lemma land_lnot_u32 (x k : Z) :
  0 <= x < 2 ^ 32 -> 0 <= k < 32 ->
  u32 (Z.land x (u32 (Z.lnot (2 ^ k)))) = Z.ldiff x (2 ^ k).
Proof.
  intros Hx Hk.
  assert (E : Z.land x (u32 (Z.lnot (2 ^ k))) = Z.ldiff x (2 ^ k)).
  { apply Z.bits_inj'. intros i Hi.
    rewrite Z.land_spec, Z.ldiff_spec. unfold u32.
    destruct (Z.lt_ge_cases i 32) as [Hlt|Hge].
    - rewrite Z.mod_pow2_bits_low by lia. now rewrite Z.lnot_spec by lia.
    - rewrite Z.mod_pow2_bits_high by lia.
      replace (Z.testbit x i) with false; [reflexivity|].
      symmetry. destruct (Z.eq_dec x 0) as [->|Hx0]; [apply Z.bits_0|].
      apply Z.bits_above_log2; [lia|].
      assert (Z.log2 x < 32) by (apply Z.log2_lt_pow2; lia). lia. }
  rewrite E. unfold u32. rewrite <- Z.land_ones by lia.
  rewrite Z.ldiff_land, <- Z.land_assoc, (Z.land_comm (Z.lnot _)), Z.land_assoc.
  rewrite Z.land_ones by lia. now rewrite Z.mod_small.
Qed.

End MoreMemFacts.

(** ** Mapping and device information *)

(** A request of at most [TOTAL_SIZE] bytes goes through to
    [remap_pfn_range]. *)
Lemma hetero_mmap_fits (vma : vm_area_struct) (remap : Z -> Z) :
  0 <= vm_start vma <= vm_end vma -> vm_end vma < 2 ^ 64 ->
  vm_end vma - vm_start vma <= Z.of_nat TOTAL_SIZE ->
  hetero_mmap vma remap
  = (remap (vm_end vma - vm_start vma),
     if remap (vm_end vma - vm_start vma) =? 0
     then Some (vm_end vma - vm_start vma) else None).
Proof.
  intros Hv Hmax Hfit. unfold hetero_mmap.
  rewrite (Z.mod_small (vm_end vma - vm_start vma)) by lia.
  replace (vm_end vma - vm_start vma >? Z.of_nat TOTAL_SIZE) with false
    by (symmetry; rewrite Z.gtb_ltb; apply Z.ltb_ge; lia).
  destruct (remap (vm_end vma - vm_start vma) =? 0) eqn:E0; [|reflexivity].
  apply Z.eqb_eq in E0. now rewrite E0.
Qed.

(** X1.  [hetero_mmap] establishes a mapping exactly when the requested
    size is at most [TOTAL_SIZE] and [remap_pfn_range] succeeds; the
    mapping then has the requested size.  A larger request fails with
    [-EINVAL] whatever [remap_pfn_range] would do. *)
Theorem hetero_mmap_limit (vma : vm_area_struct) (remap : Z -> Z) :
  0 <= vm_start vma <= vm_end vma -> vm_end vma < 2 ^ 64 ->
  let size := vm_end vma - vm_start vma in
  (size > Z.of_nat TOTAL_SIZE -> hetero_mmap vma remap = (- EINVAL, None))
  /\ (size <= Z.of_nat TOTAL_SIZE ->
      hetero_mmap vma remap
      = (remap size, if remap size =? 0 then Some size else None))
  /\ (forall ret n, hetero_mmap vma remap = (ret, Some n) ->
      ret = 0 /\ n = size /\ n <= Z.of_nat TOTAL_SIZE).
Proof.
  intros Hv Hmax size. unfold hetero_mmap.
  rewrite (Z.mod_small (vm_end vma - vm_start vma)) by lia. fold size.
  destruct (size >? Z.of_nat TOTAL_SIZE) eqn:E.
  - apply Z.gtb_lt in E. repeat split; try lia; try discriminate.
  - assert (size <= Z.of_nat TOTAL_SIZE) by (rewrite Z.gtb_ltb in E; apply Z.ltb_ge in E; lia).
    split; [lia|]. split.
    + intros _. destruct (remap size =? 0) eqn:E0; [|reflexivity].
      apply Z.eqb_eq in E0. now rewrite E0.
    + intros r n Hr. destruct (remap size =? 0); [|discriminate].
      injection Hr as <- <-. auto.
Qed.

(** An instance: a mapping of the whole block at address 0x7f0000000000. *)
Lemma hetero_mmap_limit_witness :
  let vma := {| vm_start := 0x7f0000000000;
                vm_end := 0x7f0000000000 + 36864;
                vm_pgoff := 0 |} in
  hetero_mmap vma (fun _ => 0) = (0, Some 36864)
  /\ (forall ret n, hetero_mmap vma (fun _ => 0) = (ret, Some n) ->
      ret = 0 /\ n = 36864 /\ n <= Z.of_nat TOTAL_SIZE).
Proof.
  intros vma.
  assert (H1 : 0 <= vm_start vma <= vm_end vma) by (cbn; lia).
  assert (H2 : vm_end vma < 2 ^ 64) by (cbn; lia).
  destruct (hetero_mmap_limit vma (fun _ => 0) H1 H2) as (_ & Hb & Hc).
  split; [|exact Hc]. apply Hb. apply Z.leb_le. vm_compute. reflexivity.
Defined.

(** X2.  [HETERO_IOC_GET_INFO] leaves the device as it is and reports six
    cores and sizes that agree with the block: the two sizes add up to
    [TOTAL_SIZE], the largest size [hetero_mmap] accepts, and the shared
    memory is reported at the offset where the initialisation put it,
    right behind the register space.  With an unwritable argument the
    request fails with [-EFAULT] and reports nothing. *)
Theorem get_info_describes_block dev (arg : user_ptr) :
  exists r,
    hetero_ioctl dev HETERO_IOC_GET_INFO arg = Some r
    /\ dev_after r = dev
    /\ (u_writable arg = false -> ret r = - EFAULT /\ info_out r = None)
    /\ (u_writable arg = true ->
        ret r = 0
        /\ exists info,
             info_out r = Some info
             /\ num_cores info = 6
             /\ reg_base info = Z.of_nat regs_offset
             /\ shared_base info = Z.of_nat shared_mem_offset
             /\ shared_base info = reg_base info + reg_size info
             /\ reg_size info + shared_size info = Z.of_nat TOTAL_SIZE
             /\ forall vma remap,
                  0 <= vm_start vma ->
                  vm_end vma = vm_start vma + (reg_size info + shared_size info) ->
                  vm_end vma < 2 ^ 64 -> remap (reg_size info + shared_size info) = 0 ->
                  hetero_mmap vma remap = (0, Some (Z.of_nat TOTAL_SIZE))).
Proof.
  unfold hetero_ioctl. destruct (u_writable arg).
  - eexists. split; [reflexivity|]. split; [reflexivity|].
    split; [discriminate|]. intros _. split; [reflexivity|].
    eexists. split; [reflexivity|]. cbn [num_cores reg_base shared_base reg_size shared_size].
    assert (Hsum : Z.of_nat REG_SPACE_SIZE + Z.of_nat SHARED_MEM_SIZE = Z.of_nat TOTAL_SIZE)
      by (unfold TOTAL_SIZE; lia).
    split; [reflexivity|]. split; [reflexivity|]. split; [reflexivity|].
    split; [unfold regs_offset; lia|]. split; [exact Hsum|].
    intros vma remap H0 He Hmax Hr. rewrite Hsum in *.
    assert (Hpos : 0 <= Z.of_nat TOTAL_SIZE) by lia.
    rewrite hetero_mmap_fits by lia.
    replace (vm_end vma - vm_start vma) with (Z.of_nat TOTAL_SIZE) by lia.
    now rewrite Hr.
  - eexists. split; [reflexivity|]. split; [reflexivity|].
    split; [intros _; split; reflexivity|discriminate].
Qed.

(** X3.  A control request that does not return 0 has changed nothing:
    the device is as before and no information is passed back.  The only
    error codes are [-EFAULT] and [-EINVAL]. *)
Theorem ioctl_error_changes_nothing dev (cmd : ioctl_cmd) (arg : user_ptr) r :
  hetero_ioctl dev cmd arg = Some r -> ret r <> 0 ->
  dev_after r = dev /\ info_out r = None
  /\ (ret r = - EFAULT \/ ret r = - EINVAL).
Proof.
  intros H Hr. destruct r as [rr rd ri]. cbn [ret dev_after info_out] in *.
  unfold hetero_ioctl, returns in H.
  destruct cmd.
  - destruct (u_writable arg); injection H as E1 E2 E3; [congruence|].
    subst. auto.
  - injection H as E1 E2 E3. subst. auto.
  - destruct (u_int arg) as [core_id|]; [|injection H as E1 E2 E3; subst; auto].
    destruct (shl_int 1 core_id); [|discriminate].
    injection H as E1 _ _. congruence.
  - injection H as E1 _ _. congruence.
  - injection H as E1 E2 E3. subst. auto.
Qed.

(** An instance: the interrupt request with an unreadable argument. *)
Lemma ioctl_error_changes_nothing_witness :
  hetero_ioctl booted HETERO_IOC_SEND_IPI null_arg = Some (returns (- EFAULT) booted)
  /\ ret (returns (- EFAULT) booted) <> 0
  /\ dev_after (returns (- EFAULT) booted) = booted
  /\ info_out (returns (- EFAULT) booted) = None
  /\ (ret (returns (- EFAULT) booted) = - EFAULT
      \/ ret (returns (- EFAULT) booted) = - EINVAL).
Proof.
  assert (H1 : hetero_ioctl booted HETERO_IOC_SEND_IPI null_arg
               = Some (returns (- EFAULT) booted)) by reflexivity.
  assert (H2 : ret (returns (- EFAULT) booted) <> 0) by (cbn; discriminate).
  split; [exact H1|]. split; [exact H2|].
  exact (ioctl_error_changes_nothing booted HETERO_IOC_SEND_IPI null_arg _ H1 H2).
Defined.

(** ** Invariants of runs *)

Section RunFacts.

Lemma shared_mem_store32_low dev (a : nat) (v : Z) :
  (a + 4 <= REG_SPACE_SIZE)%nat ->
  shared_mem (set_mem dev (store32 (mem_base dev) a v)) = shared_mem dev.
Proof.
  intros H. unfold shared_mem, shared_mem_offset, store32. cbn [mem_base set_mem].
  now rewrite drop_write_bytes_beyond by (rewrite length_le_split; lia).
Qed.

Lemma shared_mem_set_reg dev f (v : Z) :
  shared_mem (set_reg dev f v) = shared_mem dev.
Proof.
  unfold set_reg. apply shared_mem_store32_low.
  pose proof (offsetof_in_bank f). unfold regs_offset. lia.
Qed.

Lemma shared_mem_core0_response_work (jiffies : Z) dev :
  shared_mem (core0_response_work jiffies dev) = shared_mem dev.
Proof.
  unfold core0_response_work.
  destruct (get_reg dev mbox_main_to_core0_cmd =? 0);
    [|destruct (get_reg dev mbox_main_to_core0_cmd =? 1);
      [|destruct (get_reg dev mbox_main_to_core0_cmd =? 16)]];
    now rewrite !shared_mem_set_reg.
Qed.

Lemma shared_mem_core1_response_work (jiffies : Z) dev :
  shared_mem (core1_response_work jiffies dev) = shared_mem dev.
Proof. unfold core1_response_work. now rewrite !shared_mem_set_reg. Qed.

Lemma shared_mem_ioctl dev cmd arg r :
  hetero_ioctl dev cmd arg = Some r -> shared_mem (dev_after r) = shared_mem dev.
Proof.
  intros H. destruct r as [rr rd ri]. cbn [dev_after].
  unfold hetero_ioctl, returns in H. destruct cmd.
  - destruct (u_writable arg); injection H as _ <- _; reflexivity.
  - injection H as _ <- _. reflexivity.
  - destruct (u_int arg) as [core_id|]; [|injection H as _ <- _; reflexivity].
    destruct (shl_int 1 core_id) as [bit|]; [|discriminate].
    injection H as _ <- _.
    transitivity (shared_mem (set_reg (set_reg dev ipi_trigger bit) ipi_status
      (Z.lor (get_reg (set_reg dev ipi_trigger bit) ipi_status) (u32 bit)))).
    + destruct (core_id =? 0), (core_id =? 1); reflexivity.
    + now rewrite !shared_mem_set_reg.
  - injection H as _ <- _.
    unfold shared_mem, shared_mem_offset, memset.
    cbn [mem_base set_msg_count set_ipi_count set_mem].
    rewrite drop_write_bytes_beyond; [reflexivity|].
    rewrite length_replicate. vm_compute. lia.
  - injection H as _ <- _. reflexivity.
Qed.

Lemma step_shared_mem dev ev d :
  is_user_write ev = false -> step dev ev = Some d ->
  shared_mem d = shared_mem dev.
Proof.
  intros Hw H. destruct ev as [cmd arg|off v|j|j]; cbn [step] in H.
  - destruct (hetero_ioctl dev cmd arg) as [r|] eqn:E; [|discriminate].
    injection H as <-. now apply (shared_mem_ioctl dev cmd arg).
  - discriminate.
  - unfold run_core0_work in H. destruct (core0_work dev); [|discriminate].
    injection H as <-. now rewrite shared_mem_core0_response_work.
  - unfold run_core1_work in H. destruct (core1_work dev); [|discriminate].
    injection H as <-. now rewrite shared_mem_core1_response_work.
Qed.

Lemma counters_core0_response_work (jiffies : Z) dev :
  ipi_count (core0_response_work jiffies dev) = ipi_count dev
  /\ msg_count (core0_response_work jiffies dev) = msg_count dev.
Proof.
  unfold core0_response_work.
  destruct (get_reg dev mbox_main_to_core0_cmd =? 0);
    [|destruct (get_reg dev mbox_main_to_core0_cmd =? 1);
      [|destruct (get_reg dev mbox_main_to_core0_cmd =? 16)]];
    split; reflexivity.
Qed.

(** What one event does to the two counters. *)
Lemma step_counters dev ev d :
  step dev ev = Some d ->
  ipi_count d = (if is_reset ev then 0
                 else if is_send_ipi ev then atomic_inc (ipi_count dev)
                 else ipi_count dev)
  /\ msg_count d = (if is_reset ev then 0 else msg_count dev).
Proof.
  intros H. destruct ev as [cmd arg|off v|j|j]; cbn [step] in H.
  - destruct (hetero_ioctl dev cmd arg) as [[rr rd ri]|] eqn:E; [|discriminate].
    injection H as <-. unfold hetero_ioctl, returns in E. destruct cmd.
    + destruct (u_writable arg); injection E as _ <- _; split; reflexivity.
    + injection E as _ <- _; split; reflexivity.
    + cbn [is_reset is_send_ipi].
      destruct (u_int arg) as [core_id|]; [|injection E as _ <- _; split; reflexivity].
      destruct (shl_int 1 core_id) as [bit|]; [|discriminate].
      injection E as _ <- _.
      destruct (core_id =? 0), (core_id =? 1); split; reflexivity.
    + injection E as _ <- _; split; reflexivity.
    + injection E as _ <- _; split; reflexivity.
  - destruct (off + 4 <=? TOTAL_SIZE)%nat; [|discriminate].
    injection H as <-. split; reflexivity.
  - unfold run_core0_work in H. destruct (core0_work dev); [|discriminate].
    injection H as <-.
    destruct (counters_core0_response_work j (set_core0_work dev false)) as [-> ->].
    split; reflexivity.
  - unfold run_core1_work in H. destruct (core1_work dev); [|discriminate].
    injection H as <-. split; reflexivity.
Qed.

End RunFacts.

(** X4.  Nothing the driver does touches the shared memory: after any run
    of control requests (resets included) and responder runs, without a
    store of the caller, the shared memory region holds the bytes it held
    before. *)
Theorem shared_memory_only_written_by_caller dev (evs : list event) d :
  forallb (fun ev => negb (is_user_write ev)) evs = true ->
  run_events dev evs = Some d ->
  shared_mem d = shared_mem dev.
Proof.
  revert dev. induction evs as [|ev evs IH]; intros dev Hw H; cbn in H.
  - now injection H as <-.
  - cbn [forallb] in Hw. apply andb_true_iff in Hw. destruct Hw as [Hev Hw].
    destruct (step dev ev) as [dev'|] eqn:E; [|discriminate].
    rewrite (IH dev' Hw H).
    apply (step_shared_mem dev ev); [|exact E].
    now destruct (is_user_write ev).
Qed.

(** An instance: the sample run on a freshly loaded module. *)
Lemma shared_memory_only_written_by_caller_witness :
  forallb (fun ev => negb (is_user_write ev)) sample_run = true
  /\ exists d,
       run_events booted sample_run = Some d
       /\ shared_mem d = shared_mem booted.
Proof.
  split; [reflexivity|]. eexists. split; [reflexivity|].
  exact (shared_memory_only_written_by_caller booted sample_run _ eq_refl eq_refl).
Defined.


(** X5.  The driver never counts a message: after any run [msg_count] is
    what it was before or 0, so on a device that started with the count
    at 0, as the initialisation leaves it, the count stays 0. *)
Theorem msg_count_never_incremented dev (evs : list event) d :
  msg_count dev = 0 -> run_events dev evs = Some d -> msg_count d = 0.
Proof.
  revert dev. induction evs as [|ev evs IH]; intros dev H0 H; cbn in H.
  - now injection H as <-.
  - destruct (step dev ev) as [dev'|] eqn:E; [|discriminate].
    apply (IH dev'); [|exact H].
    destruct (step_counters dev ev dev' E) as [_ Hm].
    rewrite Hm. now destruct (is_reset ev).
Qed.

(** An instance: the sample run on a freshly loaded module. *)
Lemma msg_count_never_incremented_witness :
  msg_count booted = 0
  /\ exists d, run_events booted sample_run = Some d /\ msg_count d = 0.
Proof.
  split; [reflexivity|]. eexists. split; [reflexivity|].
  exact (msg_count_never_incremented booted sample_run _ eq_refl eq_refl).
Defined.





(** ** More on the responders and the mailbox *)

Lemma core0_response_ipi_status dev (jiffies : Z) :
  mapped dev ->
  get_reg (core0_response_work jiffies dev) ipi_status
  = Z.ldiff (get_reg dev ipi_status) 1.
Proof.
  intros Hm. unfold core0_response_work.
  destruct (get_reg dev mbox_main_to_core0_cmd =? 0);
    [|destruct (get_reg dev mbox_main_to_core0_cmd =? 1);
      [|destruct (get_reg dev mbox_main_to_core0_cmd =? 16)]];
    reg_simpl; apply (land_lnot_u32 _ 0); try lia; apply get_reg_range.
Qed.

Lemma core1_response_ipi_status dev (jiffies : Z) :
  mapped dev ->
  get_reg (core1_response_work jiffies dev) ipi_status
  = Z.ldiff (get_reg dev ipi_status) 2.
Proof.
  intros Hm. unfold core1_response_work.
  reg_simpl. apply (land_lnot_u32 _ 1); try lia; apply get_reg_range.
Qed.

Lemma mapped_core0_response_work dev (jiffies : Z) :
  mapped dev -> mapped (core0_response_work jiffies dev).
Proof.
  intros Hm. unfold core0_response_work.
  destruct (get_reg dev mbox_main_to_core0_cmd =? 0);
    [|destruct (get_reg dev mbox_main_to_core0_cmd =? 1);
      [|destruct (get_reg dev mbox_main_to_core0_cmd =? 16)]];
    eauto 10 with hetero.
Qed.

(** X7.  When no command is pending (the command register is 0), a run of
    the I/O core's responder changes no register except [ipi_status],
    where it clears bit 0 and keeps every other bit: status and response
    of the mailbox stay as they were. *)
Theorem core0_response_without_command dev (jiffies : Z) :
  mapped dev -> get_reg dev mbox_main_to_core0_cmd = 0 ->
  (forall f, f <> ipi_status ->
     get_reg (core0_response_work jiffies dev) f = get_reg dev f)
  /\ get_reg (core0_response_work jiffies dev) ipi_status
     = Z.ldiff (get_reg dev ipi_status) 1
  /\ (forall i, 0 <= i ->
        Z.testbit (get_reg (core0_response_work jiffies dev) ipi_status) i
        = Z.testbit (get_reg dev ipi_status) i && negb (i =? 0)).
Proof.
  intros Hm Hcmd. split; [|split].
  - intros f Hf. now apply core0_response_idle.
  - now apply core0_response_ipi_status.
  - intros i Hi. rewrite core0_response_ipi_status by assumption.
    rewrite Z.ldiff_spec.
    replace (Z.testbit 1 i) with (i =? 0); [reflexivity|].
    change (Z.testbit 1 i) with (Z.testbit (2 ^ 0) i).
    rewrite Z.pow2_bits_eqb by lia. apply Z.eqb_sym.
Qed.

(** An instance: a stray interrupt on a freshly loaded module. *)
Lemma core0_response_without_command_witness :
  mapped booted
  /\ get_reg booted mbox_main_to_core0_cmd = 0
  /\ (forall f, f <> ipi_status ->
        get_reg (core0_response_work 7 booted) f = get_reg booted f)
  /\ get_reg (core0_response_work 7 booted) ipi_status
     = Z.ldiff (get_reg booted ipi_status) 1.
Proof.
  assert (Hm : mapped booted) by mapped_by_computation.
  assert (Hc : get_reg booted mbox_main_to_core0_cmd = 0) by (vm_compute; reflexivity).
  destruct (core0_response_without_command booted 7 Hm Hc) as (H1 & H2 & _).
  auto.
Defined.

(** X8.  A command is answered once.  After the I/O core's responder has
    run on a pending command, the command register is 0, and a further
    run (a second interrupt, a later tick) changes no register except
    [ipi_status]: the response, a status-query answer included, is not
    refreshed. *)
Theorem core0_response_answers_once dev (jiffies1 jiffies2 : Z) :
  mapped dev -> get_reg dev mbox_main_to_core0_cmd <> 0 ->
  get_reg (core0_response_work jiffies1 dev) mbox_main_to_core0_cmd = 0
  /\ forall f, f <> ipi_status ->
       get_reg (core0_response_work jiffies2 (core0_response_work jiffies1 dev)) f
       = get_reg (core0_response_work jiffies1 dev) f.
Proof.
  intros Hm Hcmd.
  destruct (core0_response_pending dev jiffies1 Hm Hcmd) as (_ & _ & Hz).
  split; [exact Hz|]. intros f Hf. now apply core0_response_idle.
Qed.

(** An instance: a status query answered at tick 0x11, then a second run
    at tick 0x22. *)
Lemma core0_response_answers_once_witness :
  mapped (set_reg booted mbox_main_to_core0_cmd 0x0010)
  /\ get_reg (set_reg booted mbox_main_to_core0_cmd 0x0010) mbox_main_to_core0_cmd <> 0
  /\ get_reg (core0_response_work 0x11 (set_reg booted mbox_main_to_core0_cmd 0x0010))
       mbox_main_to_core0_cmd = 0
  /\ forall f, f <> ipi_status ->
       get_reg (core0_response_work 0x22
                  (core0_response_work 0x11
                     (set_reg booted mbox_main_to_core0_cmd 0x0010))) f
       = get_reg (core0_response_work 0x11
                    (set_reg booted mbox_main_to_core0_cmd 0x0010)) f.
Proof.
  assert (Hm : mapped (set_reg booted mbox_main_to_core0_cmd 0x0010))
    by mapped_by_computation.
  assert (Hc : get_reg (set_reg booted mbox_main_to_core0_cmd 0x0010)
                 mbox_main_to_core0_cmd <> 0) by (vm_compute; discriminate).
  split; [exact Hm|]. split; [exact Hc|].
  exact (core0_response_answers_once _ 0x11 0x22 Hm Hc).
Defined.

(** X9.  An interrupt is consumed by one responder run.  For a channel
    [c] of 0 or 1, after the interrupt request and the run of the
    responder of [c], bit [c] of [ipi_status] is clear and every other
    bit is as it was before the request; the responder is no longer
    pending, so the work queue does not run it again. *)
Theorem ipi_consumed_by_response dev (c jiffies : Z) :
  mapped dev -> c = 0 \/ c = 1 ->
  exists r d,
    hetero_ioctl dev HETERO_IOC_SEND_IPI (core_id_arg c) = Some r
    /\ run_work c jiffies (dev_after r) = Some d
    /\ get_reg d ipi_status = Z.ldiff (get_reg dev ipi_status) (2 ^ c)
    /\ Z.testbit (get_reg d ipi_status) c = false
    /\ (forall jiffies', run_work c jiffies' d = None).
Proof.
  intros Hm Hc.
  destruct (send_ipi_effect dev c Hm)
    as (d1 & E & Hm1 & _ & Hs & _ & _ & _ & H0 & H1); [lia|].
  exists (returns 0 d1). cbn [dev_after returns].
  assert (Hld : Z.ldiff (Z.lor (get_reg dev ipi_status) (2 ^ c)) (2 ^ c)
                = Z.ldiff (get_reg dev ipi_status) (2 ^ c)).
  { apply Z.bits_inj'. intros i Hi.
    rewrite !Z.ldiff_spec, Z.lor_spec.
    destruct (Z.testbit (get_reg dev ipi_status) i), (Z.testbit (2 ^ c) i); reflexivity. }
  assert (Hbit : Z.testbit (Z.ldiff (get_reg dev ipi_status) (2 ^ c)) c = false).
  { rewrite Z.ldiff_spec, Z.pow2_bits_true by lia. apply andb_false_r. }
  destruct Hc as [-> | ->]; cbn [Z.eqb] in H0, H1; unfold run_work; cbn [Z.eqb Pos.eqb].
  - unfold run_core0_work at 1. rewrite H0. eexists.
    split; [exact E|]. split; [reflexivity|].
    assert (Hst : get_reg (core0_response_work jiffies (set_core0_work d1 false)) ipi_status
                  = Z.ldiff (get_reg dev ipi_status) (2 ^ 0)).
    { rewrite core0_response_ipi_status by exact Hm1.
      rewrite get_reg_set_core0_work, Hs. exact Hld. }
    split; [exact Hst|]. split; [rewrite Hst; exact Hbit|].
    intros j'. unfold run_core0_work.
    replace (core0_work (core0_response_work jiffies (set_core0_work d1 false)))
      with false; [reflexivity|].
    unfold core0_response_work.
    destruct (get_reg (set_core0_work d1 false) mbox_main_to_core0_cmd =? 0);
      [|destruct (get_reg (set_core0_work d1 false) mbox_main_to_core0_cmd =? 1);
        [|destruct (get_reg (set_core0_work d1 false) mbox_main_to_core0_cmd =? 16)]];
      reflexivity.
  - unfold run_core1_work at 1. rewrite H1. eexists.
    split; [exact E|]. split; [reflexivity|].
    assert (Hst : get_reg (core1_response_work jiffies (set_core1_work d1 false)) ipi_status
                  = Z.ldiff (get_reg dev ipi_status) (2 ^ 1)).
    { rewrite core1_response_ipi_status by exact Hm1.
      rewrite get_reg_set_core1_work, Hs. exact Hld. }
    split; [exact Hst|]. split; [rewrite Hst; exact Hbit|].
    intros j'. reflexivity.
Qed.

(** An instance: the real-time core interrupted on a freshly loaded
    module. *)
Lemma ipi_consumed_by_response_witness :
  mapped booted
  /\ (1 = 0 \/ 1 = 1)
  /\ exists r d,
       hetero_ioctl booted HETERO_IOC_SEND_IPI (core_id_arg 1) = Some r
       /\ run_work 1 9 (dev_after r) = Some d
       /\ get_reg d ipi_status = Z.ldiff (get_reg booted ipi_status) (2 ^ 1)
       /\ Z.testbit (get_reg d ipi_status) 1 = false
       /\ (forall jiffies', run_work 1 jiffies' d = None).
Proof.
  assert (Hm : mapped booted) by mapped_by_computation.
  split; [exact Hm|]. split; [right; reflexivity|].
  apply (ipi_consumed_by_response booted 1 9 Hm). right; reflexivity.
Defined.

(** X10.  The mailbox holds one message.  A second message written to a
    channel before the responder has run replaces the first completely:
    the device is the one that results from writing the second message
    alone. *)
Theorem second_message_replaces_first dev (c cmd1 data1 cmd2 data2 : Z) :
  write_mailbox c cmd2 data2 (write_mailbox c cmd1 data1 dev)
  = write_mailbox c cmd2 data2 dev.
Proof.
  unfold write_mailbox, REG_WRITE32, set_mem. cbn [mem_base core0_work core1_work ipi_count msg_count].
  f_equal.
  destruct (c =? 0).
  - rewrite (store32_commute _ MBOX_MAIN_TO_CORE0_CMD_OFFSET)
      by (vm_compute; lia).
    now rewrite !store32_overwrite.
  - rewrite (store32_commute _ MBOX_MAIN_TO_CORE1_CMD_OFFSET)
      by (vm_compute; lia).
    now rewrite !store32_overwrite.
Qed.

(** X11.  A complete exchange with the I/O core returns the mailbox to
    idle.  A non-zero command and a data word are written, the interrupt
    is sent, the responder runs, and the caller clears the status
    register: then the command and status registers are 0, the response
    register still holds the answer of the command table, the data
    register still holds the data word, and bit 0 of [ipi_status] is
    clear. *)
Theorem io_exchange_returns_to_idle dev (cmd data jiffies : Z) :
  mapped dev -> 0 < cmd < 2 ^ 32 -> 0 <= data < 2 ^ 32 ->
  exists r d,
    hetero_ioctl (write_mailbox 0 cmd data dev)
      HETERO_IOC_SEND_IPI (core_id_arg 0) = Some r
    /\ run_work 0 jiffies (dev_after r) = Some d
    /\ REG_READ32 d MBOX_C02M_STAT = 1
    /\ let d' := REG_WRITE32 d MBOX_C02M_STAT 0 in
       get_reg d' mbox_main_to_core0_cmd = 0
       /\ get_reg d' mbox_core0_to_main_status = 0
       /\ get_reg d' mbox_core0_to_main_resp
          = (if cmd =? 0x0001 then 0x8001
             else if cmd =? 0x0010 then Z.lor 0x8010 (Z.land jiffies 0xFF)
             else 0xFFFF)
       /\ get_reg d' mbox_main_to_core0_data = data
       /\ Z.testbit (get_reg d' ipi_status) 0 = false.
Proof.
  intros Hm Hcmd Hdata. rewrite write_mailbox_regs by (left; reflexivity).
  unfold mbox_data, mbox_cmd. cbn [Z.eqb].
  set (dev1 := set_reg (set_reg dev mbox_main_to_core0_data data)
                 mbox_main_to_core0_cmd cmd).
  assert (Hm1 : mapped dev1) by (subst dev1; eauto with hetero).
  destruct (send_ipi_effect dev1 0 Hm1)
    as (d1 & E & Hmd & _ & Hs & Hframe & _ & _ & H0 & _); [lia|].
  cbn [Z.eqb] in H0.
  exists (returns 0 d1). cbn [dev_after returns].
  unfold run_work. cbn [Z.eqb]. unfold run_core0_work. rewrite H0.
  eexists. split; [exact E|]. split; [reflexivity|].
  set (d0 := set_core0_work d1 false).
  assert (Hc0 : get_reg d0 mbox_main_to_core0_cmd = cmd).
  { subst d0. rewrite get_reg_set_core0_work, Hframe by discriminate.
    subst dev1. rewrite get_set_reg_same by eauto with hetero.
    apply u32_small. lia. }
  assert (Hd0 : get_reg d0 mbox_main_to_core0_data = data).
  { subst d0. rewrite get_reg_set_core0_work, Hframe by discriminate.
    subst dev1. rewrite get_set_reg_other by discriminate.
    rewrite get_set_reg_same by assumption. apply u32_small. lia. }
  destruct (core0_response_pending d0 jiffies) as (Hr & Hst & Hz);
    [exact Hmd|rewrite Hc0; lia|].
  rewrite Hc0 in Hr.
  assert (Hmw : mapped (core0_response_work jiffies d0))
    by (apply mapped_core0_response_work; exact Hmd).
  split; [exact Hst|].
  change (REG_WRITE32 (core0_response_work jiffies d0) MBOX_C02M_STAT 0)
    with (set_reg (core0_response_work jiffies d0) mbox_core0_to_main_status 0).
  cbv zeta. reg_simpl.
  split; [exact Hz|]. split; [reflexivity|]. split; [exact Hr|].
  split.
  - rewrite core0_response_frame by discriminate. exact Hd0.
  - rewrite core0_response_ipi_status by exact Hmd.
    rewrite Z.ldiff_spec. change (Z.testbit 1 0) with true. apply andb_false_r.
Qed.

(** An instance: the exchange of the test program, a PING with the data
    word 0x12345678. *)
Lemma io_exchange_returns_to_idle_witness :
  mapped booted
  /\ 0 < 0x0001 < 2 ^ 32 /\ 0 <= 0x12345678 < 2 ^ 32
  /\ exists r d,
       hetero_ioctl (write_mailbox 0 0x0001 0x12345678 booted)
         HETERO_IOC_SEND_IPI (core_id_arg 0) = Some r
       /\ run_work 0 0x40 (dev_after r) = Some d
       /\ REG_READ32 d MBOX_C02M_STAT = 1
       /\ let d' := REG_WRITE32 d MBOX_C02M_STAT 0 in
          get_reg d' mbox_main_to_core0_cmd = 0
          /\ get_reg d' mbox_core0_to_main_status = 0
          /\ get_reg d' mbox_core0_to_main_resp
             = (if 0x0001 =? 0x0001 then 0x8001
                else if 0x0001 =? 0x0010 then Z.lor 0x8010 (Z.land 0x40 0xFF)
                else 0xFFFF)
          /\ get_reg d' mbox_main_to_core0_data = 0x12345678
          /\ Z.testbit (get_reg d' ipi_status) 0 = false.
Proof.
  assert (Hm : mapped booted) by mapped_by_computation.
  assert (H1 : 0 < 0x0001 < 2 ^ 32) by lia.
  assert (H2 : 0 <= 0x12345678 < 2 ^ 32) by lia.
  split; [exact Hm|]. split; [exact H1|]. split; [exact H2|].
  exact (io_exchange_returns_to_idle booted 0x0001 0x12345678 0x40 Hm H1 H2).
Defined.

(** ** The caller's wait *)

Lemma poll_from_found (kernel : nat -> hetero_device -> hetero_device) :
  forall (n i : nat) dev (k : nat),
    (k < n)%nat ->
    (forall t, (t < k)%nat ->
       REG_READ32 (dev_after_sleeps kernel i dev t) MBOX_C02M_STAT = 0) ->
    REG_READ32 (dev_after_sleeps kernel i dev k) MBOX_C02M_STAT <> 0 ->
    poll_from n i kernel dev
    = {| poll_dev := REG_WRITE32 (dev_after_sleeps kernel i dev k) MBOX_C02M_STAT 0;
         poll_timeout := Z.of_nat n - 1 - Z.of_nat k;
         poll_resp := Some (REG_READ32 (dev_after_sleeps kernel i dev k)
                              MBOX_CORE0_TO_MAIN_RESP_OFFSET) |}.
Proof.
  induction n as [|n IH]; intros i dev k Hk Hzero Hnz; [lia|].
  cbn [poll_from]. destruct k as [|k].
  - cbn [dev_after_sleeps] in *.
    apply Z.eqb_neq in Hnz. rewrite Hnz. f_equal. lia.
  - pose proof (Hzero 0%nat ltac:(lia)) as H0. cbn [dev_after_sleeps] in H0.
    rewrite H0. cbn [Z.eqb dev_after_sleeps].
    rewrite (IH (S i) (kernel i dev) k); [f_equal; lia|lia| |exact Hnz].
    intros t Ht. apply (Hzero (S t)). lia.
Qed.

Lemma poll_from_not_found (kernel : nat -> hetero_device -> hetero_device) :
  forall (n i : nat) dev,
    (forall t, (t < n)%nat ->
       REG_READ32 (dev_after_sleeps kernel i dev t) MBOX_C02M_STAT = 0) ->
    poll_from n i kernel dev
    = {| poll_dev := dev_after_sleeps kernel i dev n;
         poll_timeout := -1;
         poll_resp := None |}.
Proof.
  induction n as [|n IH]; intros i dev Hzero; [reflexivity|].
  cbn [poll_from].
  pose proof (Hzero 0%nat ltac:(lia)) as H0. cbn [dev_after_sleeps] in H0.
  rewrite H0. cbn [Z.eqb dev_after_sleeps]. apply IH.
  intros t Ht. apply (Hzero (S t)). lia.
Qed.

(** X12.  The wait of the test program, when the status register is first
    seen non-zero at reading number [k] (counted from 0, [k < 100]):
    the response read is the one in the response register at that moment,
    the status register is written back to 0, and [timeout] is left at
    [99 - k].  So the timeout message is printed exactly when [k = 99]:
    a response picked up by the last reading is reported as a timeout as
    well. *)
Theorem poll_response_found kernel dev (k : nat) :
  (k < 100)%nat ->
  (forall t, (t < k)%nat ->
     REG_READ32 (dev_at_poll kernel dev t) MBOX_C02M_STAT = 0) ->
  REG_READ32 (dev_at_poll kernel dev k) MBOX_C02M_STAT <> 0 ->
  let r := poll_response kernel dev in
  poll_resp r
  = Some (REG_READ32 (dev_at_poll kernel dev k) MBOX_CORE0_TO_MAIN_RESP_OFFSET)
  /\ poll_dev r = REG_WRITE32 (dev_at_poll kernel dev k) MBOX_C02M_STAT 0
  /\ poll_timeout r = 99 - Z.of_nat k
  /\ reports_timeout r = (k =? 99)%nat.
Proof.
  intros Hk Hzero Hnz r. subst r. unfold poll_response, dev_at_poll in *.
  rewrite (poll_from_found kernel 100 0 dev k Hk Hzero Hnz).
  cbn [poll_resp poll_dev poll_timeout]. unfold reports_timeout. cbn [poll_timeout].
  repeat split; try lia.
  destruct (Nat.eqb_spec k 99) as [->|Hne].
  - reflexivity.
  - apply Z.leb_gt. lia.
Qed.

(** An instance: the responder runs during the first sleep, so the second
    reading finds the response 0x8001 and 98 is left of the timeout. *)
Lemma poll_response_found_witness :
  (1 < 100)%nat
  /\ (forall t, (t < 1)%nat ->
        REG_READ32 (dev_at_poll prompt_kernel ping_posted t) MBOX_C02M_STAT = 0)
  /\ REG_READ32 (dev_at_poll prompt_kernel ping_posted 1) MBOX_C02M_STAT <> 0
  /\ poll_resp (poll_response prompt_kernel ping_posted)
     = Some (REG_READ32 (dev_at_poll prompt_kernel ping_posted 1)
               MBOX_CORE0_TO_MAIN_RESP_OFFSET)
  /\ poll_timeout (poll_response prompt_kernel ping_posted) = 99 - Z.of_nat 1
  /\ reports_timeout (poll_response prompt_kernel ping_posted) = (1 =? 99)%nat.
Proof.
  assert (H1 : (1 < 100)%nat) by lia.
  assert (H2 : forall t, (t < 1)%nat ->
            REG_READ32 (dev_at_poll prompt_kernel ping_posted t) MBOX_C02M_STAT = 0).
  { intros t Ht. assert (t = 0%nat) by lia. subst t. vm_compute. reflexivity. }
  assert (H3 : REG_READ32 (dev_at_poll prompt_kernel ping_posted 1) MBOX_C02M_STAT <> 0)
    by (vm_compute; discriminate).
  destruct (poll_response_found prompt_kernel ping_posted 1 H1 H2 H3)
    as (Ha & _ & Hc & Hd).
  split; [exact H1|]. split; [exact H2|]. split; [exact H3|].
  split; [exact Ha|]. split; [exact Hc|exact Hd].
Defined.

(** X13.  When the status register reads 0 at all 100 readings, the wait
    ends without a response after 100 sleeps, with [timeout] at -1, and
    the timeout message is printed; the caller has written nothing. *)
Theorem poll_response_never kernel dev :
  (forall t, (t < 100)%nat ->
     REG_READ32 (dev_at_poll kernel dev t) MBOX_C02M_STAT = 0) ->
  let r := poll_response kernel dev in
  poll_resp r = None
  /\ poll_dev r = dev_at_poll kernel dev 100
  /\ poll_timeout r = -1
  /\ reports_timeout r = true.
Proof.
  intros Hzero r. subst r. unfold poll_response, dev_at_poll in *.
  rewrite (poll_from_not_found kernel 100 0 dev Hzero).
  repeat split.
Qed.

(** An instance: nothing happens while the caller of a freshly loaded
    module waits. *)
Lemma poll_response_never_witness :
  (forall t, (t < 100)%nat ->
     REG_READ32 (dev_at_poll (fun _ d => d) booted t) MBOX_C02M_STAT = 0)
  /\ poll_resp (poll_response (fun _ d => d) booted) = None
  /\ poll_timeout (poll_response (fun _ d => d) booted) = -1
  /\ reports_timeout (poll_response (fun _ d => d) booted) = true.
Proof.
  assert (Hid : forall t i, dev_after_sleeps (fun _ d => d) i booted t = booted)
    by (induction t as [|t IH]; intros i; [reflexivity|apply IH]).
  assert (H : forall t, (t < 100)%nat ->
            REG_READ32 (dev_at_poll (fun _ d => d) booted t) MBOX_C02M_STAT = 0).
  { intros t _. unfold dev_at_poll. rewrite Hid. vm_compute. reflexivity. }
  destruct (poll_response_never (fun _ d => d) booted H) as (Ha & _ & Hc & Hd).
  split; [exact H|]. split; [exact Ha|]. split; [exact Hc|exact Hd].
Defined.

(** ** More on the initialisation *)

(** X14.  Whatever the allocated block held, a module that initialises
    starts with every register of the structure at 0 except [ipi_enable],
    which is 0x3, and [hw_mutex_status], which is 0xFFFF; both counters
    are 0 and no responder is pending. *)
Theorem hetero_init_registers env block (r : Z) dev :
  kmalloc_block env = Some block -> length block = TOTAL_SIZE ->
  hetero_init env = (r, Some dev) ->
  r = 0
  /\ mapped dev
  /\ (forall f,
        get_reg dev f
        = if decide (f = ipi_enable) then 0x3
          else if decide (f = hw_mutex_status) then 0xFFFF
          else 0)
  /\ ipi_count dev = 0 /\ msg_count dev = 0
  /\ core0_work dev = false /\ core1_work dev = false.
Proof.
  intros Hb Hl Hinit. unfold hetero_init in Hinit. rewrite Hb in Hinit.
  destruct (negb (kzalloc_ok env)); [discriminate|].
  destruct (register_ret env =? 0); [|discriminate].
  injection Hinit as <- <-.
  split; [reflexivity|]. split.
  { unfold mapped, sprintf. cbn [mem_base].
    now rewrite length_write_bytes, !length_store32, length_memset. }
  split; [|repeat split].
  intros f. unfold get_reg, sprintf. cbn [mem_base].
  rewrite load32_write_bytes_disjoint
    by (left; pose proof (offsetof_in_bank f);
        unfold regs_offset, shared_mem_offset; lia).
  rewrite <- Hl at 1. rewrite memset_whole, Hl.
  assert (Hin : forall g, (regs_offset + offsetof g + 4 <= TOTAL_SIZE)%nat).
  { intros g. pose proof (offsetof_in_bank g).
    unfold regs_offset, TOTAL_SIZE. lia. }
  destruct (decide (f = hw_mutex_status)) as [->|Hms].
  - cbn [decide].
    rewrite load32_store32_same
      by (rewrite length_store32, length_replicate; apply Hin).
    reflexivity.
  - rewrite load32_store32_other
      by (pose proof (offsetof_apart f hw_mutex_status Hms);
          unfold regs_offset; lia).
    destruct (decide (f = ipi_enable)) as [->|Hie].
    + rewrite load32_store32_same by (rewrite length_replicate; apply Hin).
      reflexivity.
    + rewrite load32_store32_other
        by (pose proof (offsetof_apart f ipi_enable Hie);
            unfold regs_offset; lia).
      apply load32_replicate_zero. apply Hin.
Qed.

(** An instance: the block comes back from the allocator filled with 0x6b. *)
Lemma hetero_init_registers_witness :
  kmalloc_block boot_env = Some (replicate TOTAL_SIZE x6b)
  /\ length (replicate TOTAL_SIZE x6b) = TOTAL_SIZE
  /\ hetero_init boot_env = (0, Some booted)
  /\ mapped booted
  /\ (forall f,
        get_reg booted f
        = if decide (f = ipi_enable) then 0x3
          else if decide (f = hw_mutex_status) then 0xFFFF
          else 0).
Proof.
  assert (Hl : length (replicate TOTAL_SIZE x6b) = TOTAL_SIZE)
    by (apply Nat.eqb_eq; vm_compute; reflexivity).
  destruct (hetero_init_registers boot_env _ 0 booted eq_refl Hl eq_refl)
    as (_ & Hm & Hf & _).
  split; [reflexivity|]. split; [exact Hl|]. split; [reflexivity|].
  split; [exact Hm|exact Hf].
Defined.


(** * The earlier drivers *)

(** ** [hetero_mmap.c]: reading and writing the shared memory *)

Section HeteroMmapFacts.

Import HeteroMmap.

(** The length the two file operations settle on. *)
Lemma transfer_length (count ppos : Z) :
  0 <= ppos < SHARED_SIZE -> 0 <= count ->
  let len := Z.min count ((SHARED_SIZE - ppos) mod 2 ^ 64) in
  0 <= len <= count /\ ppos + len <= SHARED_SIZE
  /\ len = Z.min count (SHARED_SIZE - ppos).
Proof.
  intros Hp Hc len. subst len. unfold SHARED_SIZE in *.
  rewrite Z.mod_small by lia. lia.
Qed.

Lemma length_slice (m : list byte) (p n : nat) :
  (p + n <= length m)%nat -> length (take n (drop p m)) = n.
Proof. intros H. rewrite length_take, length_drop. lia. Qed.

End HeteroMmapFacts.

(** [hetero_read] with a writable buffer, in the two cases of the
    position. *)
Lemma mmap_read_in_bounds_aux (dev : HeteroMmap.hetero_dev) (count ppos : Z) :
  length (HeteroMmap.shared_mem dev) = Z.to_nat HeteroMmap.SHARED_SIZE ->
  0 <= ppos -> 0 <= count ->
  exists r,
    HeteroMmap.hetero_read dev true count ppos = Some r
    /\ (HeteroMmap.SHARED_SIZE <= ppos ->
        HeteroMmap.read_ret r = 0 /\ HeteroMmap.read_ppos r = ppos
        /\ HeteroMmap.read_data r = [])
    /\ (ppos < HeteroMmap.SHARED_SIZE ->
        HeteroMmap.read_ret r = Z.min count (HeteroMmap.SHARED_SIZE - ppos)
        /\ 0 <= HeteroMmap.read_ret r <= count
        /\ HeteroMmap.read_ppos r = ppos + HeteroMmap.read_ret r
        /\ HeteroMmap.read_ppos r <= HeteroMmap.SHARED_SIZE
        /\ Z.of_nat (length (HeteroMmap.read_data r)) = HeteroMmap.read_ret r
        /\ HeteroMmap.read_data r
           = take (Z.to_nat (HeteroMmap.read_ret r))
               (drop (Z.to_nat ppos) (HeteroMmap.shared_mem dev))).
Proof.
  intros Hl Hp Hc. unfold HeteroMmap.hetero_read.
  replace (ppos <? 0) with false by (symmetry; apply Z.ltb_ge; lia).
  destruct (ppos >=? HeteroMmap.SHARED_SIZE) eqn:E.
  - assert (HeteroMmap.SHARED_SIZE <= ppos) by (apply Z.geb_le in E; lia).
    eexists. split; [reflexivity|]. cbn. split; [auto|intros; lia].
  - assert (Hlt : ppos < HeteroMmap.SHARED_SIZE)
      by (rewrite Z.geb_leb in E; apply Z.leb_gt in E; lia).
    destruct (transfer_length count ppos) as (H1 & H2 & H3); [lia|lia|].
    set (len := Z.min count ((HeteroMmap.SHARED_SIZE - ppos) mod 2 ^ 64)) in *.
    eexists. split; [reflexivity|]. cbn. split; [intros; lia|]. intros _.
    repeat split; try lia. rewrite length_slice by lia. lia.
Qed.

(** X16.  [hetero_read] never leaves the shared memory.  From a position
    at or past the end it returns 0 and moves nothing.  Otherwise, when
    the copy succeeds, it returns a length between 0 and [count], hands
    out exactly that many bytes, the ones stored at the position, and
    advances the position by it, never past the end; when the copy fails
    it returns [-EFAULT] and the position stays. *)
Theorem mmap_read_in_bounds (dev : HeteroMmap.hetero_dev) (buf_ok : bool)
    (count ppos : Z) :
  length (HeteroMmap.shared_mem dev) = Z.to_nat HeteroMmap.SHARED_SIZE ->
  0 <= ppos -> 0 <= count ->
  exists r,
    HeteroMmap.hetero_read dev buf_ok count ppos = Some r
    /\ (HeteroMmap.SHARED_SIZE <= ppos ->
        HeteroMmap.read_ret r = 0 /\ HeteroMmap.read_ppos r = ppos
        /\ HeteroMmap.read_data r = [])
    /\ (ppos < HeteroMmap.SHARED_SIZE -> buf_ok = true ->
        HeteroMmap.read_ret r = Z.min count (HeteroMmap.SHARED_SIZE - ppos)
        /\ 0 <= HeteroMmap.read_ret r <= count
        /\ HeteroMmap.read_ppos r = ppos + HeteroMmap.read_ret r
        /\ HeteroMmap.read_ppos r <= HeteroMmap.SHARED_SIZE
        /\ Z.of_nat (length (HeteroMmap.read_data r)) = HeteroMmap.read_ret r
        /\ HeteroMmap.read_data r
           = take (Z.to_nat (HeteroMmap.read_ret r))
               (drop (Z.to_nat ppos) (HeteroMmap.shared_mem dev)))
    /\ (ppos < HeteroMmap.SHARED_SIZE -> buf_ok = false ->
        HeteroMmap.read_ret r = - EFAULT /\ HeteroMmap.read_ppos r = ppos).
Proof.
  intros Hl Hp Hc. unfold HeteroMmap.hetero_read.
  replace (ppos <? 0) with false by (symmetry; apply Z.ltb_ge; lia).
  destruct (ppos >=? HeteroMmap.SHARED_SIZE) eqn:E.
  - assert (HeteroMmap.SHARED_SIZE <= ppos) by (apply Z.geb_le in E; lia).
    eexists. split; [reflexivity|]. cbn.
    split; [auto|]. split; intros; lia.
  - assert (Hlt : ppos < HeteroMmap.SHARED_SIZE)
      by (rewrite Z.geb_leb in E; apply Z.leb_gt in E; lia).
    destruct (transfer_length count ppos) as (H1 & H2 & H3); [lia|lia|].
    set (len := Z.min count ((HeteroMmap.SHARED_SIZE - ppos) mod 2 ^ 64)) in *.
    destruct buf_ok; eexists; (split; [reflexivity|]); cbn;
      (split; [intros; lia|]); split; intros; try discriminate; auto.
    repeat split; try lia.
    rewrite length_slice by lia. lia.
Qed.

(** An instance: 100 bytes asked for 10 bytes before the end of a zeroed
    memory. *)
Lemma mmap_read_in_bounds_witness :
  let dev := {| HeteroMmap.shared_mem := replicate (Z.to_nat HeteroMmap.SHARED_SIZE) x00 |} in
  length (HeteroMmap.shared_mem dev) = Z.to_nat HeteroMmap.SHARED_SIZE
  /\ 0 <= 32758 /\ 0 <= 100
  /\ exists r,
       HeteroMmap.hetero_read dev true 100 32758 = Some r
       /\ HeteroMmap.read_ret r = 10
       /\ HeteroMmap.read_ppos r = 32768.
Proof.
  intros dev.
  assert (Hl : length (HeteroMmap.shared_mem dev) = Z.to_nat HeteroMmap.SHARED_SIZE)
    by apply length_replicate.
  assert (H1 : 0 <= 32758) by lia. assert (H2 : 0 <= 100) by lia.
  destruct (mmap_read_in_bounds dev true 100 32758 Hl H1 H2) as (r & E & _ & Hin & _).
  destruct Hin as (Ha & _ & Hb & _); [reflexivity|reflexivity|].
  split; [exact Hl|]. split; [exact H1|]. split; [exact H2|].
  exists r. split; [exact E|]. split; [exact Ha|].
  rewrite Hb, Ha. reflexivity.
Defined.

(** X17.  What [hetero_write] stores, [hetero_read] gives back: after a
    write of [count] bytes from a readable buffer at a position, a read
    of [count] bytes at the same position returns the same length, ends
    at the same position and hands out the first bytes of the buffer,
    as many as were written. *)
Theorem mmap_write_then_read (dev : HeteroMmap.hetero_dev) (data : list byte)
    (count ppos : Z) :
  length (HeteroMmap.shared_mem dev) = Z.to_nat HeteroMmap.SHARED_SIZE ->
  0 <= ppos -> 0 <= count <= Z.of_nat (length data) ->
  exists w r,
    HeteroMmap.hetero_write dev (HeteroMmap.UserBytes data) count ppos = Some w
    /\ HeteroMmap.hetero_read (HeteroMmap.write_dev w) true count ppos = Some r
    /\ HeteroMmap.read_ret r = HeteroMmap.write_ret w
    /\ HeteroMmap.read_ppos r = HeteroMmap.write_ppos w
    /\ HeteroMmap.read_data r = take (Z.to_nat (HeteroMmap.write_ret w)) data.
Proof.
  intros Hl Hp Hc. unfold HeteroMmap.hetero_write, HeteroMmap.hetero_read.
  replace (ppos <? 0) with false by (symmetry; apply Z.ltb_ge; lia).
  destruct (ppos >=? HeteroMmap.SHARED_SIZE) eqn:E.
  - do 2 eexists. repeat split.
  - assert (Hlt : ppos < HeteroMmap.SHARED_SIZE)
      by (rewrite Z.geb_leb in E; apply Z.leb_gt in E; lia).
    destruct (transfer_length count ppos) as (H1 & H2 & H3); [lia|lia|].
    set (len := Z.min count ((HeteroMmap.SHARED_SIZE - ppos) mod 2 ^ 64)) in *.
    do 2 eexists. split; [reflexivity|]. split; [reflexivity|].
    cbn [HeteroMmap.read_ret HeteroMmap.write_ret HeteroMmap.read_ppos
         HeteroMmap.write_ppos HeteroMmap.read_data HeteroMmap.write_dev
         HeteroMmap.shared_mem].
    split; [reflexivity|]. split; [reflexivity|].
    assert (Hlen : length (take (Z.to_nat len) data) = Z.to_nat len)
      by (rewrite length_take; lia).
    rewrite write_bytes_splice by (rewrite Hlen, Hl; lia).
    rewrite drop_app_length' by (rewrite length_take, Hl; lia).
    rewrite <- Hlen at 1. apply take_app_length.
Qed.

(** An instance: five bytes written at position 100 of a zeroed memory. *)
Lemma mmap_write_then_read_witness :
  let dev := {| HeteroMmap.shared_mem := replicate (Z.to_nat HeteroMmap.SHARED_SIZE) x00 |} in
  let data := [x68; x65; x6c; x6c; x6f] in
  length (HeteroMmap.shared_mem dev) = Z.to_nat HeteroMmap.SHARED_SIZE
  /\ 0 <= 100 /\ 0 <= 5 <= Z.of_nat (length data)
  /\ exists w r,
       HeteroMmap.hetero_write dev (HeteroMmap.UserBytes data) 5 100 = Some w
       /\ HeteroMmap.hetero_read (HeteroMmap.write_dev w) true 5 100 = Some r
       /\ HeteroMmap.read_ret r = HeteroMmap.write_ret w
       /\ HeteroMmap.read_ppos r = HeteroMmap.write_ppos w
       /\ HeteroMmap.read_data r = take (Z.to_nat (HeteroMmap.write_ret w)) data.
Proof.
  intros dev data.
  assert (Hl : length (HeteroMmap.shared_mem dev) = Z.to_nat HeteroMmap.SHARED_SIZE)
    by apply length_replicate.
  assert (H1 : 0 <= 100) by lia.
  assert (H2 : 0 <= 5 <= Z.of_nat (length data)) by (cbn; lia).
  split; [exact Hl|]. split; [exact H1|]. split; [exact H2|].
  exact (mmap_write_then_read dev data 5 100 Hl H1 H2).
Defined.

(** X18.  [hetero_write] changes nothing outside the bytes it was asked
    to write: the shared memory keeps its size, and every byte before the
    position or from position plus [min(count, SHARED_SIZE - position)] on
    is as before, whether the copy from the caller succeeded or faulted;
    a faulting write returns [-EFAULT] and leaves the position. *)
Theorem mmap_write_frame (dev : HeteroMmap.hetero_dev) (buf : HeteroMmap.user_src)
    (count ppos : Z) :
  0 <= ppos -> 0 <= count ->
  exists w,
    HeteroMmap.hetero_write dev buf count ppos = Some w
    /\ length (HeteroMmap.shared_mem (HeteroMmap.write_dev w))
       = length (HeteroMmap.shared_mem dev)
    /\ (forall j : nat,
          Z.of_nat j < ppos
          \/ ppos + Z.min count (HeteroMmap.SHARED_SIZE - ppos) <= Z.of_nat j ->
          HeteroMmap.shared_mem (HeteroMmap.write_dev w) !! j
          = HeteroMmap.shared_mem dev !! j)
    /\ (forall partial, buf = HeteroMmap.UserFault partial ->
          ppos < HeteroMmap.SHARED_SIZE ->
          HeteroMmap.write_ret w = - EFAULT /\ HeteroMmap.write_ppos w = ppos).
Proof.
  intros Hp Hc. unfold HeteroMmap.hetero_write.
  replace (ppos <? 0) with false by (symmetry; apply Z.ltb_ge; lia).
  destruct (ppos >=? HeteroMmap.SHARED_SIZE) eqn:E.
  - assert (HeteroMmap.SHARED_SIZE <= ppos) by (apply Z.geb_le in E; lia).
    eexists. split; [reflexivity|]. cbn. repeat split; intros; lia.
  - assert (Hlt : ppos < HeteroMmap.SHARED_SIZE)
      by (rewrite Z.geb_leb in E; apply Z.leb_gt in E; lia).
    destruct (transfer_length count ppos) as (H1 & H2 & H3); [lia|lia|].
    set (len := Z.min count ((HeteroMmap.SHARED_SIZE - ppos) mod 2 ^ 64)) in *.
    rewrite <- H3.
    assert (Hout : forall (bs : list byte) (j : nat),
      Z.of_nat j < ppos \/ ppos + len <= Z.of_nat j ->
      write_bytes (HeteroMmap.shared_mem dev) (Z.to_nat ppos)
        (take (Z.to_nat len) bs) !! j
      = HeteroMmap.shared_mem dev !! j).
    { intros bs j Hj. apply lookup_write_bytes_out.
      pose proof (firstn_le_length (Z.to_nat len) bs). lia. }
    destruct buf as [data|partial]; eexists; (split; [reflexivity|]);
      cbn [HeteroMmap.write_ret HeteroMmap.write_ppos HeteroMmap.write_dev
           HeteroMmap.shared_mem];
      (split; [apply length_write_bytes|]); (split; [apply Hout|]).
    + intros p' Hp'. discriminate.
    + intros p' _ _. split; reflexivity.
Qed.

(** An instance: a faulting write of 8 bytes at position 16 that got as
    far as two bytes. *)
Lemma mmap_write_frame_witness :
  let dev := {| HeteroMmap.shared_mem := replicate (Z.to_nat HeteroMmap.SHARED_SIZE) x00 |} in
  0 <= 16 /\ 0 <= 8
  /\ exists w,
       HeteroMmap.hetero_write dev (HeteroMmap.UserFault [x41; x42]) 8 16 = Some w
       /\ length (HeteroMmap.shared_mem (HeteroMmap.write_dev w))
          = length (HeteroMmap.shared_mem dev)
       /\ HeteroMmap.write_ret w = - EFAULT /\ HeteroMmap.write_ppos w = 16.
Proof.
  intros dev.
  assert (H1 : 0 <= 16) by lia. assert (H2 : 0 <= 8) by lia.
  destruct (mmap_write_frame dev (HeteroMmap.UserFault [x41; x42]) 8 16 H1 H2)
    as (w & E & Hl & _ & Hf).
  destruct (Hf _ eq_refl) as (Ha & Hb); [reflexivity|].
  split; [exact H1|]. split; [exact H2|].
  exists w. split; [exact E|]. split; [exact Hl|]. split; [exact Ha|exact Hb].
Defined.


(** X19.  Reading in two steps is reading in one: a read of [count1]
    bytes followed by a read of [count2] bytes at the position the first
    one left hands out, together, the bytes of a single read of
    [count1 + count2] bytes, and ends at the same position. *)
Theorem mmap_read_twice (dev : HeteroMmap.hetero_dev) (count1 count2 ppos : Z) :
  length (HeteroMmap.shared_mem dev) = Z.to_nat HeteroMmap.SHARED_SIZE ->
  0 <= ppos -> 0 <= count1 -> 0 <= count2 ->
  exists r1 r2 r,
    HeteroMmap.hetero_read dev true count1 ppos = Some r1
    /\ HeteroMmap.hetero_read dev true count2 (HeteroMmap.read_ppos r1) = Some r2
    /\ HeteroMmap.hetero_read dev true (count1 + count2) ppos = Some r
    /\ HeteroMmap.read_data r = HeteroMmap.read_data r1 ++ HeteroMmap.read_data r2
    /\ HeteroMmap.read_ret r = HeteroMmap.read_ret r1 + HeteroMmap.read_ret r2
    /\ HeteroMmap.read_ppos r = HeteroMmap.read_ppos r2.
Proof.
  intros Hl Hp H1 H2.
  destruct (mmap_read_in_bounds_aux dev count1 ppos Hl Hp H1) as (r1 & E1 & Ha1 & Hb1).
  assert (Hp1 : 0 <= HeteroMmap.read_ppos r1).
  { destruct (Z.le_gt_cases HeteroMmap.SHARED_SIZE ppos) as [Hge|Hlt].
    - destruct (Ha1 Hge) as (_ & -> & _). lia.
    - destruct (Hb1 Hlt) as (_ & ? & -> & _). lia. }
  destruct (mmap_read_in_bounds_aux dev count2 _ Hl Hp1 H2) as (r2 & E2 & Ha2 & Hb2).
  destruct (mmap_read_in_bounds_aux dev (count1 + count2) ppos Hl Hp ltac:(lia))
    as (r & E & Ha & Hb).
  exists r1, r2, r. split; [exact E1|]. split; [exact E2|]. split; [exact E|].
  destruct (Z.le_gt_cases HeteroMmap.SHARED_SIZE ppos) as [Hge|Hlt].
  - destruct (Ha1 Hge) as (R1 & P1 & D1). destruct (Ha Hge) as (R & P & D).
    destruct Ha2 as (R2 & P2 & D2); [lia|].
    rewrite D, D1, D2, R, R1, R2, P, P2, P1. repeat split.
  - destruct (Hb1 Hlt) as (R1 & B1 & P1 & L1 & _ & D1).
    destruct (Hb Hlt) as (R & B & P & L & _ & D).
    destruct (Z.le_gt_cases HeteroMmap.SHARED_SIZE (HeteroMmap.read_ppos r1)) as [Hge1|Hlt1].
    + destruct (Ha2 Hge1) as (R2 & P2 & D2).
      rewrite D2, R2, P2, app_nil_r, D, D1, P, P1.
      assert (HeteroMmap.read_ret r = HeteroMmap.read_ret r1) by lia.
      repeat split; try lia. congruence.
    + destruct (Hb2 Hlt1) as (R2 & B2 & P2 & L2 & _ & D2).
      assert (HR : HeteroMmap.read_ret r
                   = HeteroMmap.read_ret r1 + HeteroMmap.read_ret r2) by lia.
      split; [|split; [exact HR|lia]].
      rewrite D, D1, D2, HR, P1.
      rewrite Z2Nat.inj_add by lia.
      rewrite <- take_take_drop. f_equal. f_equal.
      rewrite drop_drop. f_equal. lia.
Qed.

(** An instance: 30 and then 100 bytes read from 50 bytes before the end
    of a zeroed memory. *)
Lemma mmap_read_twice_witness :
  let dev := {| HeteroMmap.shared_mem := replicate (Z.to_nat HeteroMmap.SHARED_SIZE) x00 |} in
  length (HeteroMmap.shared_mem dev) = Z.to_nat HeteroMmap.SHARED_SIZE
  /\ 0 <= 32718 /\ 0 <= 30 /\ 0 <= 100
  /\ exists r1 r2 r,
       HeteroMmap.hetero_read dev true 30 32718 = Some r1
       /\ HeteroMmap.hetero_read dev true 100 (HeteroMmap.read_ppos r1) = Some r2
       /\ HeteroMmap.hetero_read dev true (30 + 100) 32718 = Some r
       /\ HeteroMmap.read_data r = HeteroMmap.read_data r1 ++ HeteroMmap.read_data r2
       /\ HeteroMmap.read_ret r = HeteroMmap.read_ret r1 + HeteroMmap.read_ret r2
       /\ HeteroMmap.read_ppos r = HeteroMmap.read_ppos r2.
Proof.
  intros dev.
  assert (Hl : length (HeteroMmap.shared_mem dev) = Z.to_nat HeteroMmap.SHARED_SIZE)
    by apply length_replicate.
  assert (H0 : 0 <= 32718) by lia.
  assert (H1 : 0 <= 30) by lia. assert (H2 : 0 <= 100) by lia.
  split; [exact Hl|]. split; [exact H0|]. split; [exact H1|]. split; [exact H2|].
  exact (mmap_read_twice dev 30 100 32718 Hl H0 H1 H2).
Defined.

Lemma list_byte_of_string_append (s1 s2 : string) :
  list_byte_of_string (String.append s1 s2)
  = list_byte_of_string s1 ++ list_byte_of_string s2.
Proof.
  induction s1 as [|a s1 IH]; [reflexivity|].
  cbn [String.append]. unfold list_byte_of_string in *.
  cbn [list_ascii_of_string List.map app]. now rewrite IH.
Qed.

Lemma take_write_bytes_head (m bs1 bs2 : list byte) :
  (length bs1 <= length m)%nat ->
  take (length bs1) (write_bytes m 0 (bs1 ++ bs2)) = bs1.
Proof.
  intros H. apply list_eq. intros j.
  destruct (decide (j < length bs1)%nat) as [Hj|Hj].
  - rewrite lookup_take_lt by lia.
    rewrite lookup_write_bytes_in by (rewrite ?length_app; lia).
    rewrite Nat.sub_0_r. now apply lookup_app_l.
  - rewrite lookup_take_ge by lia. symmetry. apply lookup_ge_None_2. lia.
Qed.

(** X20.  Whatever the tick counter and whatever the allocated block
    held, the shared memory of a freshly loaded [hetero_mmap] module has
    its full size and starts with the 25 characters
    "Hello from kernel! Time: ", and a first read of 25 bytes returns
    them and leaves the position at 25. *)
Theorem mmap_init_greeting env block (jiffies r : Z) dev :
  kmalloc_block env = Some block ->
  length block = Z.to_nat HeteroMmap.SHARED_SIZE ->
  HeteroMmap.hetero_init env jiffies = (r, Some dev) ->
  r = 0
  /\ length (HeteroMmap.shared_mem dev) = Z.to_nat HeteroMmap.SHARED_SIZE
  /\ take 25 (HeteroMmap.shared_mem dev)
     = list_byte_of_string HeteroMmap.greeting_prefix
  /\ HeteroMmap.hetero_read dev true 25 0
     = Some {| HeteroMmap.read_ret := 25;
               HeteroMmap.read_ppos := 25;
               HeteroMmap.read_data :=
                 list_byte_of_string HeteroMmap.greeting_prefix |}.
Proof.
  intros Hb Hl Hinit. unfold HeteroMmap.hetero_init in Hinit. rewrite Hb in Hinit.
  destruct (negb (kzalloc_ok env)); [discriminate|].
  destruct (register_ret env =? 0); [|discriminate].
  injection Hinit as <- <-. cbn [HeteroMmap.shared_mem].
  set (m := memset block 0 x00 (Z.to_nat HeteroMmap.SHARED_SIZE)).
  assert (Hm : length m = Z.to_nat HeteroMmap.SHARED_SIZE)
    by (subst m; now rewrite length_memset).
  assert (Hlen : length (sprintf m 0 (HeteroMmap.greeting jiffies))
                 = Z.to_nat HeteroMmap.SHARED_SIZE)
    by (unfold sprintf; now rewrite length_write_bytes).
  assert (Htake : take 25 (sprintf m 0 (HeteroMmap.greeting jiffies))
                  = list_byte_of_string HeteroMmap.greeting_prefix).
  { unfold sprintf, HeteroMmap.greeting.
    rewrite list_byte_of_string_append, <- app_assoc.
    apply (take_write_bytes_head m (list_byte_of_string HeteroMmap.greeting_prefix)).
    rewrite Hm.
    change (length (list_byte_of_string HeteroMmap.greeting_prefix)) with 25%nat.
    unfold HeteroMmap.SHARED_SIZE. lia. }
  split; [reflexivity|]. split; [exact Hlen|]. split; [exact Htake|].
  unfold HeteroMmap.hetero_read. cbn [HeteroMmap.shared_mem].
  change (0 <? 0) with false. change (0 >=? HeteroMmap.SHARED_SIZE) with false.
  cbv iota.
  change (Z.min 25 ((HeteroMmap.SHARED_SIZE - 0) mod 2 ^ 64)) with 25.
  change (Z.to_nat 0) with 0%nat. change (Z.to_nat 25) with 25%nat.
  rewrite drop_0, Htake. reflexivity.
Qed.

(** An instance: tick 4294937296 (five minutes before the 32-bit wrap of a
    fresh boot), the block coming back filled with 0x6b. *)
Lemma mmap_init_greeting_witness :
  let env := {| kzalloc_ok := true;
                kmalloc_block := Some (replicate (Z.to_nat HeteroMmap.SHARED_SIZE) x6b);
                register_ret := 0 |} in
  exists dev,
    HeteroMmap.hetero_init env 4294937296 = (0, Some dev)
    /\ length (HeteroMmap.shared_mem dev) = Z.to_nat HeteroMmap.SHARED_SIZE
    /\ take 25 (HeteroMmap.shared_mem dev)
       = list_byte_of_string HeteroMmap.greeting_prefix.
Proof.
  intros env. eexists. split; [reflexivity|].
  assert (Hl : length (replicate (Z.to_nat HeteroMmap.SHARED_SIZE) x6b)
               = Z.to_nat HeteroMmap.SHARED_SIZE) by apply length_replicate.
  destruct (mmap_init_greeting env _ 4294937296 0 _ eq_refl Hl eq_refl)
    as (_ & Ha & Hb & _).
  split; [exact Ha|exact Hb].
Defined.

(** ** [test_mmap.c]: the fill loop *)

Lemma fill_from_lookup :
  forall (n : nat) (i : Z) (m : list byte) (k : nat),
    0 <= i -> (i + Z.of_nat n) * 1024 <= Z.of_nat (length m) ->
    (k < length m)%nat ->
    TestMmap.fill_from n i m !! k
    = if decide (i * 1024 <= Z.of_nat k < (i + Z.of_nat n) * 1024)
      then Some (byte_of_Z (Z.land (Z.of_nat k / 1024) 0xFF))
      else m !! k.
Proof.
  induction n as [|n IH]; intros i m k Hi Hfit Hk.
  - cbn [TestMmap.fill_from]. destruct (decide _) as [H|H]; [lia|reflexivity].
  - cbn [TestMmap.fill_from].
    rewrite IH by (rewrite ?length_memset; lia).
    destruct (decide ((i + 1) * 1024 <= Z.of_nat k < (i + 1 + Z.of_nat n) * 1024))
      as [H1|H1].
    + destruct (decide _) as [H|H]; [reflexivity|lia].
    + unfold memset.
      destruct (decide (i * 1024 <= Z.of_nat k < i * 1024 + 1024)) as [H2|H2].
      * rewrite lookup_write_bytes_in by (rewrite ?length_replicate; lia).
        rewrite lookup_replicate_2 by lia.
        destruct (decide _) as [H|H]; [|lia].
        replace (Z.of_nat k / 1024) with i; [reflexivity|].
        apply (Z.div_unique _ _ _ (Z.of_nat k - i * 1024)); lia.
      * rewrite lookup_write_bytes_out by (rewrite ?length_replicate; lia).
        destruct (decide _) as [H|H]; [lia|reflexivity].
Qed.

(** X21.  After the fill loop of the test program every byte of the
    mapping holds the number of its KiB block (byte [k] holds [k / 1024]),
    whatever the mapping held before: nothing of the earlier tests, nor of
    the driver's greeting, is left.  The store of test 5 then puts 'E' in
    the last byte and changes no other. *)
Theorem test_mmap_fill (mapped_mem : list byte) (k : nat) :
  length mapped_mem = Z.to_nat HeteroMmap.SHARED_SIZE ->
  (k < length mapped_mem)%nat ->
  TestMmap.test4_fill mapped_mem !! k = Some (byte_of_Z (Z.of_nat k / 1024))
  /\ length (TestMmap.test5_last_byte (TestMmap.test4_fill mapped_mem))
     = length mapped_mem
  /\ TestMmap.test5_last_byte (TestMmap.test4_fill mapped_mem) !! k
     = Some (if decide (Z.of_nat k = HeteroMmap.SHARED_SIZE - 1) then x45
             else byte_of_Z (Z.of_nat k / 1024)).
Proof.
  intros Hl Hk.
  assert (Hsz : Z.of_nat (length mapped_mem) = 32768)
    by (rewrite Hl; unfold HeteroMmap.SHARED_SIZE; lia).
  assert (Hfill : TestMmap.test4_fill mapped_mem !! k
                  = Some (byte_of_Z (Z.of_nat k / 1024))).
  { unfold TestMmap.test4_fill. rewrite fill_from_lookup by lia.
    destruct (decide _) as [H|H]; [|lia].
    assert (Hq : 0 <= Z.of_nat k / 1024 < 32)
      by (split; [apply Z.div_pos; lia|apply Z.div_lt_upper_bound; lia]).
    change 0xFF with (Z.ones 8). rewrite Z.land_ones by lia.
    rewrite Z.mod_small by (change (2 ^ 8) with 256; lia). reflexivity. }
  assert (Hlen : forall n i m, length (TestMmap.fill_from n i m) = length m).
  { induction n as [|n IH]; intros i m; [reflexivity|].
    cbn [TestMmap.fill_from]. now rewrite IH, length_memset. }
  split; [exact Hfill|]. unfold TestMmap.test5_last_byte.
  split; [unfold TestMmap.test4_fill; now rewrite length_write_bytes, Hlen|].
  destruct (decide (Z.of_nat k = HeteroMmap.SHARED_SIZE - 1)) as [He|Hne].
  - replace (Z.to_nat (HeteroMmap.SHARED_SIZE - 1)) with k by lia.
    rewrite lookup_write_bytes_in.
    + now rewrite Nat.sub_diag.
    + cbn [length]. lia.
    + unfold TestMmap.test4_fill. rewrite Hlen. lia.
  - rewrite lookup_write_bytes_out by (cbn [length]; lia). exact Hfill.
Qed.

(** An instance: byte 3000 of a mapping that was filled with 0x6b. *)
Lemma test_mmap_fill_witness :
  let m := replicate (Z.to_nat HeteroMmap.SHARED_SIZE) x6b in
  length m = Z.to_nat HeteroMmap.SHARED_SIZE
  /\ (3000 < length m)%nat
  /\ TestMmap.test4_fill m !! 3000%nat = Some (byte_of_Z (Z.of_nat 3000 / 1024)).
Proof.
  intros m.
  assert (Hl : length m = Z.to_nat HeteroMmap.SHARED_SIZE) by apply length_replicate.
  assert (Hk : (3000 < length m)%nat)
    by (rewrite Hl; apply Nat.ltb_lt; vm_compute; reflexivity).
  destruct (test_mmap_fill m 3000 Hl Hk) as (Ha & _).
  split; [exact Hl|]. split; [exact Hk|exact Ha].
Defined.

(** ** [hetero_soc_v2.c]: the status words *)

Lemma soc_run_status (reqs : list (HeteroSoc.ioctl_cmd * HeteroSoc.user_arg)) :
  forall hdev (s0 s1 : bool),
    HeteroSoc.io_core_status hdev = Z.b2z s0 ->
    HeteroSoc.rt_core_status hdev = Z.b2z s1 ->
    HeteroSoc.io_core_status (HeteroSoc.run_requests hdev reqs)
    = Z.b2z (HeteroSoc.pinged 0 s0 reqs)
    /\ HeteroSoc.rt_core_status (HeteroSoc.run_requests hdev reqs)
       = Z.b2z (HeteroSoc.pinged 1 s1 reqs).
Proof.
  induction reqs as [|[c arg] reqs IH]; intros hdev s0 s1 H0 H1.
  - split; assumption.
  - cbn [HeteroSoc.run_requests HeteroSoc.pinged].
    destruct c; cbn [HeteroSoc.hetero_ioctl].
    + destruct (HeteroSoc.u_int arg) as [id|]; [|now apply IH].
      destruct (id =? 0) eqn:E0.
      * apply Z.eqb_eq in E0. subst id. cbn [Z.eqb]. now apply IH.
      * destruct (id =? 1) eqn:E1; now apply IH.
    + destruct (HeteroSoc.u_writable arg); now apply IH.
    + destruct (HeteroSoc.u_msg arg); now apply IH.
    + now apply IH.
    + now apply IH.
Qed.

(** X22.  After any sequence of requests on a freshly loaded
    [hetero_soc] module, [HETERO_IOC_GET_STATUS] with a writable argument
    leaves the device as it is and returns, as its return value and in
    the caller's word alike, a status from 0 to 3 (0 is not all it
    returns on success): bit 0 is set exactly when core 0 has been pinged
    since the last reset, bit 1 exactly when core 1 has. *)
Theorem soc_get_status (reqs : list (HeteroSoc.ioctl_cmd * HeteroSoc.user_arg))
    (ui : option Z) (um : option HeteroSoc.hetero_msg) :
  let hdev := HeteroSoc.run_requests HeteroSoc.initial reqs in
  let r := HeteroSoc.hetero_ioctl hdev HeteroSoc.HETERO_IOC_GET_STATUS
             {| HeteroSoc.u_int := ui; HeteroSoc.u_msg := um;
                HeteroSoc.u_writable := true |} in
  HeteroSoc.dev_after r = hdev
  /\ HeteroSoc.status_out r = Some (HeteroSoc.ret r)
  /\ 0 <= HeteroSoc.ret r <= 3
  /\ Z.testbit (HeteroSoc.ret r) 0 = HeteroSoc.pinged 0 false reqs
  /\ Z.testbit (HeteroSoc.ret r) 1 = HeteroSoc.pinged 1 false reqs.
Proof.
  intros hdev r. subst r.
  destruct (soc_run_status reqs HeteroSoc.initial false false eq_refl eq_refl)
    as [H0 H1].
  fold hdev in H0, H1.
  cbn [HeteroSoc.hetero_ioctl HeteroSoc.u_writable HeteroSoc.dev_after
       HeteroSoc.status_out HeteroSoc.ret].
  rewrite H0, H1.
  destruct (HeteroSoc.pinged 0 false reqs), (HeteroSoc.pinged 1 false reqs);
    repeat split; try reflexivity; vm_compute; discriminate.
Qed.



(** X24.  Without a reset in between, [msg_count] of the [hetero_soc]
    module grows by exactly the number of pings of core 0 or 1 and of
    messages that could be read, whatever core a message names (the
    core number of a message is not looked at), as long as the counter
    does not overflow. *)
Theorem soc_msg_count_counts
    (reqs : list (HeteroSoc.ioctl_cmd * HeteroSoc.user_arg)) hdev :
  forallb (fun req => negb (HeteroSoc.is_reset req)) reqs = true ->
  - 2 ^ 31 <= HeteroSoc.msg_count hdev ->
  HeteroSoc.msg_count hdev
    + HeteroSoc.count_requests HeteroSoc.counts_message reqs < 2 ^ 31 ->
  HeteroSoc.msg_count (HeteroSoc.run_requests hdev reqs)
  = HeteroSoc.msg_count hdev
    + HeteroSoc.count_requests HeteroSoc.counts_message reqs.
Proof.
  revert hdev. induction reqs as [|[c arg] reqs IH]; intros hdev Hr Hlo Hhi.
  - cbn. lia.
  - cbn [forallb] in Hr. apply andb_true_iff in Hr. destruct Hr as [Hc Hr].
    cbn [HeteroSoc.run_requests HeteroSoc.count_requests] in *.
    assert (Hnn : forall l, 0 <= HeteroSoc.count_requests HeteroSoc.counts_message l).
    { induction l as [|e l IHl]; cbn; [lia|].
      destruct (HeteroSoc.counts_message e); lia. }
    pose proof (Hnn reqs).
    assert (Hstep :
      HeteroSoc.msg_count (HeteroSoc.dev_after (HeteroSoc.hetero_ioctl hdev c arg))
      = HeteroSoc.msg_count hdev
        + (if HeteroSoc.counts_message (c, arg) then 1 else 0)).
    { assert (Hw : HeteroSoc.counts_message (c, arg) = true ->
                   int_wrap (HeteroSoc.msg_count hdev + 1)
                   = HeteroSoc.msg_count hdev + 1).
      { intros Hcm. rewrite Hcm in Hhi. unfold int_wrap.
        rewrite Z.mod_small by lia. lia. }
      destruct c; cbn [HeteroSoc.hetero_ioctl HeteroSoc.counts_message] in *.
      - destruct (HeteroSoc.u_int arg) as [id|]; [|cbn; lia].
        destruct (id =? 0); [cbn; rewrite Hw by reflexivity; lia|].
        destruct (id =? 1); [cbn; rewrite Hw by reflexivity; lia|].
        cbn. lia.
      - destruct (HeteroSoc.u_writable arg); cbn; lia.
      - destruct (HeteroSoc.u_msg arg); [cbn; rewrite Hw by reflexivity; lia|cbn; lia].
      - discriminate Hc.
      - cbn. lia. }
    rewrite IH; [rewrite Hstep; lia|exact Hr|rewrite Hstep|rewrite Hstep];
      destruct (HeteroSoc.counts_message (c, arg)); lia.
Qed.

(** An instance: the sample requests hold a ping of core 0, a ping of core
    5, a message for core 7 and an unknown request. *)
Lemma soc_msg_count_counts_witness :
  forallb (fun req => negb (HeteroSoc.is_reset req)) HeteroSoc.sample_requests = true
  /\ - 2 ^ 31 <= HeteroSoc.msg_count HeteroSoc.initial
  /\ HeteroSoc.msg_count HeteroSoc.initial
       + HeteroSoc.count_requests HeteroSoc.counts_message HeteroSoc.sample_requests
     < 2 ^ 31
  /\ HeteroSoc.msg_count (HeteroSoc.run_requests HeteroSoc.initial HeteroSoc.sample_requests)
     = HeteroSoc.msg_count HeteroSoc.initial
       + HeteroSoc.count_requests HeteroSoc.counts_message HeteroSoc.sample_requests.
Proof.
  assert (H1 : forallb (fun req => negb (HeteroSoc.is_reset req))
                 HeteroSoc.sample_requests = true) by reflexivity.
  assert (H2 : - 2 ^ 31 <= HeteroSoc.msg_count HeteroSoc.initial) by (cbn; lia).
  assert (H3 : HeteroSoc.msg_count HeteroSoc.initial
               + HeteroSoc.count_requests HeteroSoc.counts_message
                   HeteroSoc.sample_requests < 2 ^ 31) by (vm_compute; reflexivity).
  split; [exact H1|]. split; [exact H2|]. split; [exact H3|].
  exact (soc_msg_count_counts HeteroSoc.sample_requests HeteroSoc.initial H1 H2 H3).
Defined.
